(** * Benchmark regression check: [scripts/compare_benchmarks.py]

    A shallow embedding of the script that compares the JSON result files
    of the IPC benchmarks with a table of baselines, renders a markdown
    report and sets the exit status of the CI job.

    Modelling conventions.
    - Python objects are values of one type [value]: the data [json.load]
      returns, plus [VFmt] for the [str] an f-string evaluates to.
    - A [dict] is an association list in insertion order (the order
      [keys()] iterates in); keys are unique, as in any dict [json.load]
      builds.
    - A number is a Python [int] (a [Z]) or a Python [float] (a binary64
      float of the kernel).  Arithmetic follows Python: an [int] meeting a
      [float] is converted first, which raises [OverflowError] beyond the
      range of the floats; every operation on floats is rounded; a
      comparison is exact, also between an [int] and a [float].
    - A [str] is kept as the bytes of its UTF-8 encoding.  [str.lower()] and
      [str.upper()] follow the Unicode tables of the interpreter: the model
      takes the two methods as the class [Builtins], of which it knows what
      they do to ASCII text, and proves its theorems for every member of the
      class.
    - Exceptions are the [Raise] results of [res]; code that prints threads
      the [world] (what went to stdout, what was written to files). *)

From Stdlib Require Import List String Ascii Bool Arith ZArith QArith Lia Lqa.
From Stdlib Require Import Permutation.
From Stdlib Require Import Floats.PrimFloat Floats.SpecFloat Floats.FloatOps.
From Stdlib Require Import Floats.FloatAxioms.
From Stdlib Require Import FunctionalExtensionality ProofIrrelevance.
Import ListNotations.

Set Warnings "-register-all".

Local Open Scope string_scope.
Local Open Scope list_scope.

(** ** Python values *)

Inductive value : Type :=
| VNone
| VBool (b : bool)
| VInt (n : Z)
| VFloat (f : float)
| VStr (s : string)
| VFmt (template : string) (args : list value)
| VList (l : list value)
| VDict (d : list (string * value)).

(** [VFmt t args] stands for the string an f-string yields: [t] is the
    literal with each replacement field reduced to its format spec, [args]
    the values of the fields in order.  The characters are not computed.
    JSON files hold no [VFmt], and the program never inspects one: test
    names, keys and statuses come from the files and from literals. *)

Inductive exn : Type :=
| KeyError (k : string)
| TypeError
| AttributeError
| ValueError
| OverflowError
| ZeroDivisionError
| FileNotFoundError (path : string)
| Unmodelled.

(** [Unmodelled] is raised by the model only, where the characters of a
    [VFmt] would be needed. *)

Inductive res (A : Type) : Type :=
| Ok (a : A)
| Raise (e : exn).

Arguments Ok {A} a.
Arguments Raise {A} e.

Definition rbind {A B : Type} (r : res A) (k : A -> res B) : res B :=
  match r with
  | Ok a => k a
  | Raise e => Raise e
  end.

Declare Scope res_scope.
Delimit Scope res_scope with res.
Notation "x <- r ;; k" := (rbind r (fun x => k))
  (at level 100, r at next level, right associativity) : res_scope.
Notation "r ;; k" := (rbind r (fun _ => k))
  (at level 100, right associativity) : res_scope.

(** ** Numbers *)

(** What an arithmetic operator sees. *)
Inductive number : Type :=
| Int (n : Z)
| Float (f : float).

Definition of_number (x : number) : value :=
  match x with
  | Int n => VInt n
  | Float f => VFloat f
  end.

(** The operand of an arithmetic operator or of a comparison with a number;
    [bool] is a subtype of [int]. *)
Definition num (v : value) : res number :=
  match v with
  | VInt n => Ok (Int n)
  | VFloat f => Ok (Float f)
  | VBool b => Ok (Int (if b then 1 else 0))
  | _ => Raise TypeError
  end.

(** [float(n)]: the nearest float, ties to even; [OverflowError] when that
    is beyond the largest float. *)
Definition int_to_float (n : Z) : res float :=
  match binary_normalize prec emax n 0 false with
  | S754_infinity _ => Raise OverflowError
  | sf => Ok (SF2Prim sf)
  end.

Definition to_float (x : number) : res float :=
  match x with
  | Int n => int_to_float n
  | Float f => Ok f
  end.

(** An integer as the quotient of two ints sees it: exact, whatever its
    size. *)
Definition exact (n : Z) : spec_float :=
  match n with
  | Z0 => S754_zero false
  | Zpos p => S754_finite false p 0
  | Zneg p => S754_finite true p 0
  end.

(** [a / b] for two ints: the quotient rounded once to the nearest float. *)
Definition int_truediv (a b : Z) : res float :=
  if Z.eqb b 0 then Raise ZeroDivisionError
  else
    match SFdiv prec emax (exact a) (exact b) with
    | S754_infinity _ => Raise OverflowError
    | sf => Ok (SF2Prim sf)
    end.

(** [a / b] *)
Definition truediv (a b : number) : res float :=
  match a, b with
  | Int x, Int y => int_truediv x y
  | _, _ =>
      (fa <- to_float a ;;
       fb <- to_float b ;;
       if is_zero fb then Raise ZeroDivisionError else Ok (fa / fb)%float)%res
  end.

(** [a * b], [a + b], [a - b] *)
Definition mul (a b : number) : res number :=
  match a, b with
  | Int x, Int y => Ok (Int (x * y))
  | _, _ =>
      (fa <- to_float a ;; fb <- to_float b ;; Ok (Float (fa * fb)%float))%res
  end.

Definition add (a b : number) : res number :=
  match a, b with
  | Int x, Int y => Ok (Int (x + y))
  | _, _ =>
      (fa <- to_float a ;; fb <- to_float b ;; Ok (Float (fa + fb)%float))%res
  end.

Definition sub (a b : number) : res number :=
  match a, b with
  | Int x, Int y => Ok (Int (x - y))
  | _, _ =>
      (fa <- to_float a ;; fb <- to_float b ;; Ok (Float (fa - fb)%float))%res
  end.

(** The value of a number: a rational or an infinity, none for NaN. *)
Inductive xreal : Type :=
| NegInf
| Fin (q : Q)
| PosInf.

Definition pow2 (e : Z) : Q :=
  match e with
  | Z0 => 1
  | Zpos p => inject_Z (Z.pow_pos 2 p)
  | Zneg p => 1 # (Pos.pow 2 p)
  end.

Definition float_value (f : float) : option xreal :=
  match Prim2SF f with
  | S754_nan => None
  | S754_zero _ => Some (Fin 0)
  | S754_infinity s => Some (if s then NegInf else PosInf)
  | S754_finite s m e =>
      Some (Fin (inject_Z (if s then Zneg m else Zpos m) * pow2 e))
  end.

Definition number_value (x : number) : option xreal :=
  match x with
  | Int n => Some (Fin (inject_Z n))
  | Float f => float_value f
  end.

Definition xle (x y : xreal) : bool :=
  match x, y with
  | NegInf, _ => true
  | _, PosInf => true
  | Fin p, Fin q => Qle_bool p q
  | _, _ => false
  end.

(** [a <= b], and [b >= a]: the comparison of the two values, false when
    one of them is NaN. *)
Definition num_le (a b : number) : bool :=
  match number_value a, number_value b with
  | Some x, Some y => xle x y
  | _, _ => false
  end.

(** ** Strings *)

(** A [str] is kept as the bytes of its UTF-8 encoding. *)

Definition lower_char (c : ascii) : ascii :=
  let n := nat_of_ascii c in
  if (65 <=? n)%nat && (n <=? 90)%nat then ascii_of_nat (n + 32) else c.

Definition upper_char (c : ascii) : ascii :=
  let n := nat_of_ascii c in
  if (97 <=? n)%nat && (n <=? 122)%nat then ascii_of_nat (n - 32) else c.

Fixpoint map_string (f : ascii -> ascii) (s : string) : string :=
  match s with
  | EmptyString => EmptyString
  | String c s' => String (f c) (map_string f s')
  end.

(** The change of case of the ASCII letters. *)
Definition lower_string : string -> string := map_string lower_char.
Definition upper_string : string -> string := map_string upper_char.

(** A string of ASCII characters only. *)
Fixpoint is_ascii (s : string) : bool :=
  match s with
  | EmptyString => true
  | String c s' => (nat_of_ascii c <? 128)%nat && is_ascii s'
  end.

(** [str.lower()] and [str.upper()].  They follow the Unicode tables of the
    interpreter, which the model does not fix: it takes the two methods as
    given and knows of them only what they do to a string of ASCII
    characters. *)
Class Builtins : Type := {
  str_lower : string -> string;
  str_upper : string -> string;
  str_lower_ascii : forall s, is_ascii s = true -> str_lower s = lower_string s;
  str_upper_ascii : forall s, is_ascii s = true -> str_upper s = upper_string s
}.

(** The class has a member: the methods that change the ASCII letters and
    nothing else.  It is the interpreter of the statements that need one;
    their strings are ASCII. *)
Definition ascii_only : Builtins :=
  {| str_lower := lower_string;
     str_upper := upper_string;
     str_lower_ascii := fun s _ => eq_refl;
     str_upper_ascii := fun s _ => eq_refl |}.

(** An interpreter's methods, computed where the string is ASCII. *)
Definition on_ascii (py : Builtins) : Builtins :=
  {| str_lower := fun s => if is_ascii s then lower_string s else str_lower s;
     str_upper := fun s => if is_ascii s then upper_string s else str_upper s;
     str_lower_ascii :=
       fun s (H : is_ascii s = true) =>
         @eq_ind_r bool true
           (fun b => (if b then lower_string s else str_lower s) = lower_string s)
           eq_refl (is_ascii s) H;
     str_upper_ascii :=
       fun s (H : is_ascii s = true) =>
         @eq_ind_r bool true
           (fun b => (if b then upper_string s else str_upper s) = upper_string s)
           eq_refl (is_ascii s) H |}.

(** [sub in s] for two strings. *)
Fixpoint str_in (sub s : string) : bool :=
  String.prefix sub s ||
  match s with
  | EmptyString => false
  | String _ s' => str_in sub s'
  end.

(** [v.lower()] / [v.upper()]: a method of [str] only. *)
Definition lower {py : Builtins} (v : value) : res string :=
  match v with
  | VStr s => Ok (str_lower s)
  | VFmt _ _ => Raise Unmodelled
  | _ => Raise AttributeError
  end.

Definition upper {py : Builtins} (v : value) : res value :=
  match v with
  | VStr s => Ok (VStr (str_upper s))
  | VFmt _ _ => Raise Unmodelled
  | _ => Raise AttributeError
  end.

(** [v == s] for a string literal [s].  No template of this program renders
    to one of the literals it compares with, so a [VFmt] is unequal. *)
Definition eq_str (v : value) (s : string) : bool :=
  match v with
  | VStr s' => String.eqb s' s
  | _ => false
  end.

(** ** Dictionaries and indexing *)

Definition dict := list (string * value).

Fixpoint lookup (k : string) (d : dict) : option value :=
  match d with
  | [] => None
  | (k', v) :: d' => if String.eqb k' k then Some v else lookup k d'
  end.

Definition dict_keys (d : dict) : list string := map fst d.

Definition has_key (k : string) (d : dict) : bool :=
  match lookup k d with Some _ => true | None => false end.

(** [v[k]] with a string subscript. *)
Definition getitem (v : value) (k : string) : res value :=
  match v with
  | VDict d =>
      match lookup k d with
      | Some x => Ok x
      | None => Raise (KeyError k)
      end
  | _ => Raise TypeError
  end.

(** [k in v] for a string [k]. *)
Definition contains (k : string) (v : value) : res bool :=
  match v with
  | VDict d => Ok (has_key k d)
  | VList l => Ok (existsb (fun x => eq_str x k) l)
  | VStr s => Ok (str_in k s)
  | VFmt _ _ => Raise Unmodelled
  | _ => Raise TypeError
  end.

(** [v.get(k, default)] and [v.get(k)]. *)
Definition get_default (v : value) (k : string) (default : value) : res value :=
  match v with
  | VDict d =>
      match lookup k d with
      | Some x => Ok x
      | None => Ok default
      end
  | _ => Raise AttributeError
  end.

Definition get (v : value) (k : string) : res value := get_default v k VNone.

(** [v.keys()]. *)
Definition keys (v : value) : res (list string) :=
  match v with
  | VDict d => Ok (dict_keys d)
  | _ => Raise AttributeError
  end.

(** Truth value of an object.  Every template of the program holds literal
    text, so a formatted string is not empty. *)
Definition truthy (v : value) : bool :=
  match v with
  | VNone => false
  | VBool b => b
  | VInt n => negb (Z.eqb n 0)
  | VFloat f => negb (is_zero f)
  | VStr s => negb (String.eqb s "")
  | VFmt _ _ => true
  | VList l => match l with [] => false | _ => true end
  | VDict d => match d with [] => false | _ => true end
  end.

(** [for x in v]: the items the loop runs over. *)
Definition iter (v : value) : res (list value) :=
  match v with
  | VList l => Ok l
  | VDict d => Ok (map VStr (dict_keys d))
  | VStr s => Ok (map (fun c => VStr (String c EmptyString)) (list_ascii_of_string s))
  | VFmt _ _ => Raise Unmodelled
  | _ => Raise TypeError
  end.

(** A replacement field with a float spec ([:.0f], [:.2f]): an [int] is
    converted to float first. *)
Definition float_field (v : value) : res value :=
  match v with
  | VFloat _ | VBool _ => Ok v
  | VInt n => (_ <- int_to_float n ;; Ok v)%res
  | VStr _ | VFmt _ _ => Raise ValueError
  | _ => Raise TypeError
  end.

(** ** [load_json] *)

(** The files the script can read, as the values [json.load] gives. *)
Definition filesystem := string -> option value.

Definition load_json (fs : filesystem) (file_path : string) : res value :=
  match fs file_path with
  | Some v => Ok v
  | None => Raise (FileNotFoundError file_path)
  end.

(** ** [compare_metric] *)

Definition compare_metric (actual baseline tolerance_percent : value)
    (comparison : string) : res bool :=
  (percent <- num tolerance_percent ;;
   ratio <- truediv percent (Int 100) ;;
   bound <- num baseline ;;
   tolerance <- mul bound (Float ratio) ;;
   if String.eqb comparison "min" then
     lowest <- sub bound tolerance ;;
     measured <- num actual ;;
     Ok (num_le lowest measured)
   else
     highest <- add bound tolerance ;;
     measured <- num actual ;;
     Ok (num_le measured highest))%res.

(** ** Printing code *)

(** What a run leaves behind: the lines printed, oldest first, and the
    files written. *)
Record world : Type := mkWorld {
  stdout : list value;
  written : list (string * list value)
}.

Definition M (A : Type) : Type := world -> world * res A.

Definition ret {A : Type} (a : A) : M A := fun w => (w, Ok a).

Definition bind {A B : Type} (m : M A) (k : A -> M B) : M B :=
  fun w =>
    match m w with
    | (w', Ok a) => k a w'
    | (w', Raise e) => (w', Raise e)
    end.

Definition lift {A : Type} (r : res A) : M A := fun w => (w, r).

Definition print (line : value) : M unit :=
  fun w => (mkWorld (stdout w ++ [line]) (written w), Ok tt).

Declare Scope io_scope.
Delimit Scope io_scope with io.
Bind Scope io_scope with M.
Notation "x <- m ;; k" := (bind m (fun x => k))
  (at level 100, m at next level, right associativity) : io_scope.
Notation "m ;; k" := (bind m (fun _ => k))
  (at level 100, right associativity) : io_scope.

(** ** [analyze_test_results] *)

(** Lines 46-50: the loop that looks for the baseline key.  [None] is the
    initial [baseline_key = None]; the loop stops at the first key found in
    the lower-cased test name. *)
Fixpoint find_baseline_key {py : Builtins} (ks : list string)
    (test_name : value) : res (option string) :=
  match ks with
  | [] => Ok None
  | key :: rest =>
      (lowered <- lower test_name ;;
       if str_in key lowered then Ok (Some key)
       else find_baseline_key rest test_name)%res
  end.

(** One of the four blocks [if '<bound>' in baseline: ...] of lines 65-95,
    as the list of messages it appends: the measured value is
    [results[section][field]], the bound [baseline[bound_key]].  The first
    field of each message has a float spec. *)
Definition check (results baseline tolerance : value)
    (bound_key section field comparison template : string)
    : res (list value) :=
  (present <- contains bound_key baseline ;;
   if present then
     sec <- getitem results section ;;
     actual <- getitem sec field ;;
     bound <- getitem baseline bound_key ;;
     within <- compare_metric actual bound tolerance comparison ;;
     if negb within then
       shown <- float_field actual ;;
       Ok [VFmt template [shown; bound]]
     else Ok []
   else Ok [])%res.

(** [results[section][field]]. *)
Definition getitem2 (v : value) (section field : string) : res value :=
  (sec <- getitem v section ;; getitem sec field)%res.

(** Lines 97-103. *)
Definition status_of (failures warnings : list value) : string :=
  match failures with
  | _ :: _ => "failed"
  | [] =>
      match warnings with
      | _ :: _ => "warning"
      | [] => "passed"
      end
  end.

(** Lines 59-117: the comparison with the baseline found. *)
Definition evaluate (results os_baselines test_name : value)
    (os_name baseline_key : string) : res value :=
  (baseline <- getitem os_baselines baseline_key ;;
   tolerance <- get_default baseline "tolerance_percent" (VInt 10) ;;
   f1 <- check results baseline tolerance "min_throughput_msg_sec"
           "throughput" "messages_per_second" "min"
           "Throughput {:.0f} < {} msg/sec" ;;
   f2 <- check results baseline tolerance "max_memory_mb"
           "memory" "peak_mb" "max"
           "Memory {:.2f} > {} MB" ;;
   f3 <- check results baseline tolerance "max_latency_p99_us"
           "latency" "p99_us" "max"
           "P99 latency {:.2f} > {} μs" ;;
   w1 <- check results baseline tolerance "max_violations_percent"
           "latency" "violation_percentage" "max"
           "Latency violations {:.2f}% > {}%" ;;
   let failures := f1 ++ f2 ++ f3 in
   let warnings := w1 in
   let status := status_of failures warnings in
   throughput <- getitem2 results "throughput" "messages_per_second" ;;
   memory_mb <- getitem2 results "memory" "peak_mb" ;;
   p99_latency_us <- getitem2 results "latency" "p99_us" ;;
   error_rate <- getitem2 results "errors" "error_rate" ;;
   Ok (VDict [("status", VStr status);
              ("test_name", test_name);
              ("os", VStr os_name);
              ("failures", VList failures);
              ("warnings", VList warnings);
              ("metrics", VDict [("throughput", throughput);
                                 ("memory_mb", memory_mb);
                                 ("p99_latency_us", p99_latency_us);
                                 ("error_rate", error_rate)])]))%res.

(** Lines 52-57: the result when no baseline key was found. *)
Definition no_baseline (results test_name : value) : value :=
  VDict [("status", VStr "warning");
         ("message", VFmt "No baseline found for test '{}'" [test_name]);
         ("details", results)].

(** Lines 42-117: what follows the choice of the platform.  No line of it
    prints.  [if not baseline_key] holds for [None] and for the empty
    string. *)
Definition compare_with_baselines {py : Builtins} (results table : value)
    (os_name : string) : res value :=
  (os_baselines <- getitem table os_name ;;
   test_name <- getitem results "test_name" ;;
   ks <- keys os_baselines ;;
   baseline_key <- find_baseline_key ks test_name ;;
   match baseline_key with
   | Some key =>
       if String.eqb key "" then Ok (no_baseline results test_name)
       else evaluate results os_baselines test_name os_name key
   | None => Ok (no_baseline results test_name)
   end)%res.

Definition analyze_test_results {py : Builtins} (fs : filesystem)
    (results_file baselines_file os_name : string) : M value :=
  (results <- lift (load_json fs results_file) ;;
   baselines <- lift (load_json fs baselines_file) ;;
   table <- lift (getitem baselines "baselines") ;;
   known <- lift (contains os_name table) ;;
   os_name <-
     (if negb known then
        print (VFmt "Warning: No baselines for OS '{}', using linux defaults"
                 [VStr os_name]) ;;
        ret "linux"
      else ret os_name) ;;
   lift (compare_with_baselines results table os_name))%io.

(** ** [generate_markdown_report] *)

Definition nl : string := String (ascii_of_nat 10) EmptyString.

Definition VNat (n : nat) : value := VInt (Z.of_nat n).

(** [sum(1 for a in analyses if a['status'] == status)]. *)
Fixpoint count_status (status : string) (analyses : list value) : res nat :=
  match analyses with
  | [] => Ok 0%nat
  | a :: rest =>
      (s <- getitem a "status" ;;
       n <- count_status status rest ;;
       Ok (if eq_str s status then S n else n))%res
  end.

(** Lines 125-127: [(passed, failed, warnings)]. *)
Definition summary (analyses : list value) : res (nat * nat * nat) :=
  (passed <- count_status "passed" analyses ;;
   failed <- count_status "failed" analyses ;;
   warnings <- count_status "warning" analyses ;;
   Ok (passed, failed, warnings))%res.

Definition failed_banner : string := "## ❌ Status: FAILED" ++ nl.

(** Lines 129-134. *)
Definition banner (failed warnings : nat) : string :=
  if (0 <? failed)%nat then failed_banner
  else if (0 <? warnings)%nat then "## ⚠️ Status: PASSED WITH WARNINGS" ++ nl
  else "## ✅ Status: PASSED" ++ nl.

(** Lines 122-141: the head of the report. *)
Definition report_head (analyses : list value) : res (list value) :=
  (counts <- summary analyses ;;
   let '(passed, failed, warnings) := counts in
   Ok [VStr ("# 📊 IPC Performance Test Results" ++ nl);
       VStr (banner failed warnings);
       VFmt ("- ✅ Passed: {}" ++ nl) [VNat passed];
       VFmt ("- ⚠️ Warnings: {}" ++ nl) [VNat warnings];
       VFmt ("- ❌ Failed: {}" ++ nl ++ nl) [VNat failed];
       VStr ("## Detailed Results" ++ nl ++ nl)])%res.

(** ["✅" if status == 'passed' else "⚠️" if status == 'warning' else "❌"]. *)
Definition status_icon (status : value) : string :=
  if eq_str status "passed" then "✅"
  else if eq_str status "warning" then "⚠️"
  else "❌".

(** [analysis['metrics'][field]] in a replacement field with a float spec. *)
Definition metric_field (analysis : value) (field : string) : res value :=
  (v <- getitem2 analysis "metrics" field ;; float_field v)%res.

(** Lines 156-160 and 162-166: the itemized list under [title], when
    [analysis.get(key)] is true. *)
Definition itemized (analysis : value) (key title : string) : res (list value) :=
  (items <- get analysis key ;;
   if truthy items then
     listed <- getitem analysis key ;;
     each <- iter listed ;;
     Ok ([VStr (title ++ nl)]
           ++ map (fun item => VFmt ("- {}" ++ nl) [item]) each
           ++ [VStr nl])
   else Ok [])%res.

(** Lines 144-166: the body of the loop, as the pieces it appends. *)
Definition report_section (analysis : value) : res (list value) :=
  (status <- getitem analysis "status" ;;
   let icon := status_icon status in
   test_name <- getitem analysis "test_name" ;;
   os <- getitem analysis "os" ;;
   throughput <- metric_field analysis "throughput" ;;
   memory_mb <- metric_field analysis "memory_mb" ;;
   p99_latency_us <- metric_field analysis "p99_latency_us" ;;
   error_rate <- metric_field analysis "error_rate" ;;
   failures <- itemized analysis "failures" "**Failures:**" ;;
   warnings <- itemized analysis "warnings" "**Warnings:**" ;;
   Ok ([VFmt ("### {} {} ({})" ++ nl ++ nl) [VStr icon; test_name; os];
        VStr ("| Metric | Value |" ++ nl);
        VStr ("|--------|-------|" ++ nl);
        VFmt ("| Throughput | {:.0f} msg/sec |" ++ nl) [throughput];
        VFmt ("| Memory | {:.2f} MB |" ++ nl) [memory_mb];
        VFmt ("| P99 Latency | {:.2f} μs |" ++ nl) [p99_latency_us];
        VFmt ("| Error Rate | {:.2f}% |" ++ nl ++ nl) [error_rate]]
         ++ failures ++ warnings))%res.

(** Lines 143-166: the loop. *)
Fixpoint report_sections (analyses : list value) : res (list value) :=
  match analyses with
  | [] => Ok []
  | analysis :: rest =>
      (sec <- report_section analysis ;;
       more <- report_sections rest ;;
       Ok (sec ++ more))%res
  end.

(** The report is the concatenation of the pieces returned. *)
Definition generate_markdown_report (analyses : list value) : res (list value) :=
  (head <- report_head analyses ;;
   sections <- report_sections analyses ;;
   Ok (head ++ sections))%res.

(** ** [main] *)

(** What [argparse] hands over. *)
Record arguments : Type := mkArguments {
  results_dir : string;
  baselines_path : string;            (* [--baselines] *)
  output : option string;             (* [--output] *)
  fail_on_regression : bool           (* [--fail-on-regression] *)
}.

(** Lines 187-194: the OS guessed from the file name. *)
Definition detect_os {py : Builtins} (result_file : string) : string :=
  let path := str_lower result_file in
  if str_in "linux" path then "linux"
  else if str_in "macos" path || str_in "darwin" path then "macos"
  else if str_in "windows" path || str_in "win" path then "windows"
  else "linux".

Definition try_except {A : Type} (body : M A) (handler : exn -> M A) : M A :=
  fun w =>
    match body w with
    | (w', Raise e) => handler e w'
    | (w', Ok a) => (w', Ok a)
    end.

(** [str(e)]: the text of an exception, kept as its class and argument. *)
Definition str_exn (e : exn) : value :=
  match e with
  | KeyError k => VFmt "KeyError: '{}'" [VStr k]
  | TypeError => VFmt "TypeError" []
  | AttributeError => VFmt "AttributeError" []
  | ValueError => VFmt "ValueError" []
  | OverflowError => VFmt "OverflowError" []
  | ZeroDivisionError => VFmt "ZeroDivisionError" []
  | FileNotFoundError path => VFmt "FileNotFoundError: '{}'" [VStr path]
  | Unmodelled => VFmt "Unmodelled" []
  end.

Fixpoint print_each (template : string) (items : list value) : M unit :=
  match items with
  | [] => ret tt
  | item :: rest => (print (VFmt template [item]) ;; print_each template rest)%io
  end.

(** Lines 204-206 and 208-210. *)
Definition print_itemized (analysis : value) (key template : string) : M unit :=
  (items <- lift (get analysis key) ;;
   if truthy items then
     listed <- lift (getitem analysis key) ;;
     each <- lift (iter listed) ;;
     print_each template each
   else ret tt)%io.

(** Lines 200-210: the summary printed for one test. *)
Definition print_summary {py : Builtins} (analysis : value) (os_name : string)
    : M unit :=
  (status <- lift (getitem analysis "status") ;;
   let icon := status_icon status in
   name <- lift (get_default analysis "test_name" (VStr "Unknown")) ;;
   shown <- lift (upper status) ;;
   print (VFmt "{} {} ({}): {}" [VStr icon; name; VStr os_name; shown]) ;;
   print_itemized analysis "failures" "  ❌ {}" ;;
   print_itemized analysis "warnings" "  ⚠️ {}")%io.

(** Lines 186-214: the body of the loop over the result files.  The [try]
    block is split where [analyses.append(analysis)] stands: an exception
    raised after it leaves the analysis in the list. *)
Definition process {py : Builtins} (fs : filesystem) (args : arguments)
    (analyses : list value) (result_file : string) : M (list value) :=
  let os_name := detect_os result_file in
  let report_error (e : exn) : M unit :=
    print (VFmt "Error processing {}: {}" [VStr result_file; str_exn e]) in
  (analysed <-
     try_except
       (analysis <- analyze_test_results fs result_file (baselines_path args) os_name ;;
        ret (Some analysis))
       (fun e => report_error e ;; ret None) ;;
   match analysed with
   | None => ret analyses
   | Some analysis =>
       try_except (print_summary analysis os_name) report_error ;;
       ret (analyses ++ [analysis])
   end)%io.

Fixpoint process_all {py : Builtins} (fs : filesystem) (args : arguments)
    (analyses : list value) (result_files : list string) : M (list value) :=
  match result_files with
  | [] => ret analyses
  | result_file :: rest =>
      (analyses' <- process fs args analyses result_file ;;
       process_all fs args analyses' rest)%io
  end.

Definition write_file (path : string) (content : list value) : M unit :=
  fun w => (mkWorld (stdout w) (written w ++ [(path, content)]), Ok tt).

(** Lines 226-232: the exit status. *)
Definition exit_code (enforce : bool) (analyses : list value) : res Z :=
  if enforce then
    (failed_count <- count_status "failed" analyses ;;
     if (0 <? failed_count)%nat then Ok 1%Z else Ok 0%Z)%res
  else Ok 0%Z.

(** [result_files] is what [results_dir.glob('*.json')] yields.  The string
    [''.join(report)] is kept as the list of its pieces; the value returned
    is the argument of [sys.exit]. *)
Definition main {py : Builtins} (fs : filesystem) (args : arguments)
    (result_files : list string) : M Z :=
  (analyses <- process_all fs args [] result_files ;;
   report <- lift (generate_markdown_report analyses) ;;
   match output args with
   | Some path =>
       if negb (String.eqb path "") then
         write_file path report ;;
         print (VFmt (nl ++ "Report written to {}") [VStr path])
       else print (VList (VStr nl :: report))
   | None => print (VList (VStr nl :: report))
   end ;;
   lift (exit_code (fail_on_regression args) analyses))%io.

(** The status the process ends with: an uncaught exception ends it with a
    traceback and status 1. *)
Definition process_status (r : res Z) : Z :=
  match r with
  | Ok code => code
  | Raise _ => 1%Z
  end.

(** ** Notions used in the statements *)

(** [sub] occurs in [s]. *)
Definition is_substring (sub s : string) : Prop :=
  exists before after, s = (before ++ sub ++ after)%string.

(** The tolerance rule in exact arithmetic: [bound * percent / 100] and the
    two comparisons with it. *)
Definition slack (bound percent : Q) : Q := bound * percent / 100.

Definition exact_rule (actual bound percent : Q) (comparison : string) : bool :=
  if String.eqb comparison "min" then Qle_bool (bound - slack bound percent) actual
  else Qle_bool actual (bound + slack bound percent).

(** The answer of a call that returned. *)
Definition accepted (r : res bool) : bool :=
  match r with
  | Ok b => b
  | Raise _ => false
  end.

(** An int too large to become a float. *)
Definition beyond_floats (x : number) : Prop :=
  exists n, x = Int n /\ int_to_float n = Raise OverflowError.

(** An int whose hundredth is too large to be a float. *)
Definition percent_beyond_floats (x : number) : Prop :=
  exists n, x = Int n /\ int_truediv n 100 = Raise OverflowError.

(** A float that is a number: neither NaN nor an infinity. *)
Definition finite (f : float) : Prop :=
  exists q, float_value f = Some (Fin q).

(** A number every step of the script accepts: a float, or an int that
    converts to float and whose hundredth is a float. *)
Definition in_float_range (v : value) : Prop :=
  exists x, num v = Ok x /\
            (exists f, to_float x = Ok f) /\
            (exists r, truediv x (Int 100) = Ok r).

(** [m] is the message of a breach of the bound [baseline[bound_key]] by the
    measured value [results[section][field]]: [compare_metric] rejects the
    measured value. *)
Definition breach (results baseline tolerance : value)
    (bound_key section field comparison template : string) (m : value) : Prop :=
  exists actual bound,
    getitem baseline bound_key = Ok bound /\
    getitem2 results section field = Ok actual /\
    compare_metric actual bound tolerance comparison = Ok false /\
    m = VFmt template [actual; bound].

(** The four rows of the comparison. *)
Definition throughput_breach (results baseline tolerance m : value) : Prop :=
  breach results baseline tolerance "min_throughput_msg_sec"
    "throughput" "messages_per_second" "min"
    "Throughput {:.0f} < {} msg/sec" m.

Definition memory_breach (results baseline tolerance m : value) : Prop :=
  breach results baseline tolerance "max_memory_mb"
    "memory" "peak_mb" "max" "Memory {:.2f} > {} MB" m.

Definition latency_breach (results baseline tolerance m : value) : Prop :=
  breach results baseline tolerance "max_latency_p99_us"
    "latency" "p99_us" "max" "P99 latency {:.2f} > {} μs" m.

Definition violations_breach (results baseline tolerance m : value) : Prop :=
  breach results baseline tolerance "max_violations_percent"
    "latency" "violation_percentage" "max"
    "Latency violations {:.2f}% > {}%" m.

(** A result file with every field the script reads. *)
Definition metric_record (test_name : string)
    (throughput memory p99 violations error_rate : value) : value :=
  VDict [("test_name", VStr test_name);
         ("throughput", VDict [("messages_per_second", throughput)]);
         ("memory", VDict [("peak_mb", memory)]);
         ("latency", VDict [("p99_us", p99);
                            ("violation_percentage", violations)]);
         ("errors", VDict [("error_rate", error_rate)])].

(** A baseline entry whose values are all numbers in the range of the
    floats. *)
Definition numeric_entry (d : dict) : Prop :=
  forall k x, lookup k d = Some x -> in_float_range x.

Definition has_status (a : value) : Prop :=
  exists s, getitem a "status" = Ok s.

Definition renders (a : value) : Prop :=
  exists pieces, report_section a = Ok pieces.

(** The file system with [path] holding [v]. *)
Definition with_file (fs : filesystem) (path : string) (v : value) : filesystem :=
  fun p => if String.eqb p path then Some v else fs p.

Definition no_files : filesystem := fun _ => None.

(** The content of a baselines file: [{"baselines": {platform: entries}}]. *)
Definition baselines_json (platforms : dict) : value :=
  VDict [("baselines", VDict platforms)].

(** The platform whose entries are used. *)
Definition platform (known : bool) (os_name : string) : string :=
  if known then os_name else "linux".

(** The world after the warning of line 39. *)
Definition warn_fallback (os_name : string) (w : world) : world :=
  mkWorld
    (stdout w ++ [VFmt "Warning: No baselines for OS '{}', using linux defaults"
                    [VStr os_name]])
    (written w).

(** ** Sample runs *)

Module Sample.

Definition record (test_name : string) (throughput memory p99 violations : Z)
    : value :=
  metric_record test_name (VInt throughput) (VInt memory) (VInt p99)
    (VInt violations) (VInt 0).

Definition files (results baselines : value) : filesystem :=
  with_file (with_file no_files "baselines.json" baselines)
    "results.json" results.

Definition start : world := mkWorld [] [].

Definition run {py : Builtins} (results baselines : value) (os_name : string)
    : world * res value :=
  analyze_test_results (files results baselines)
    "results.json" "baselines.json" os_name start.

(** Scenario A: bound 100000 msg/sec, tolerance 10 percent. *)
Definition throughput_entry : value :=
  VDict [("min_throughput_msg_sec", VInt 100000);
         ("tolerance_percent", VInt 10)].

(** Scenario C: memory bound 50, violations bound 1, tolerance 5 percent. *)
Definition memory_entry : value :=
  VDict [("max_memory_mb", VInt 50);
         ("max_violations_percent", VInt 1);
         ("tolerance_percent", VInt 5)].

Definition linux_only (entries : dict) : value :=
  baselines_json [("linux", VDict entries)].

Definition throughput_table : value :=
  linux_only [("throughput", throughput_entry)].

Definition memory_table : value :=
  linux_only [("memory", memory_entry)].

(** Three keys, two of which occur in ["ipc_memory_test"]. *)
Definition priority_entries : dict :=
  [("latency", VDict [("max_latency_p99_us", VInt 10)]);
   ("ipc", throughput_entry);
   ("ipc_memory", memory_entry)].

(** A key with a capital letter. *)
Definition capital_table : value :=
  linux_only [("Latency", VDict [("max_latency_p99_us", VInt 10)])].

(** The same entry under the key in lower case. *)
Definition lower_table : value :=
  linux_only [("latency", VDict [("max_latency_p99_us", VInt 10)])].

(** A table with a platform of its own. *)
Definition freebsd_table : value :=
  baselines_json [("linux", VDict [("throughput", throughput_entry)]);
                  ("freebsd", VDict [("memory", memory_entry)])].

(** A table with a negative bound and a platform nobody asks for. *)
Definition odd_platforms : dict :=
  [("linux", VDict [("throughput", VDict [("max_memory_mb", VInt (-5))])])].

Definition odd_table : value :=
  baselines_json (odd_platforms ++ [("plan9", VStr "fast")]).

(** The dictionary of lines 105-117. *)
Definition verdict (status test_name os_name : string)
    (failures warnings : list value) (throughput memory p99 : Z) : value :=
  VDict [("status", VStr status);
         ("test_name", VStr test_name);
         ("os", VStr os_name);
         ("failures", VList failures);
         ("warnings", VList warnings);
         ("metrics", VDict [("throughput", VInt throughput);
                            ("memory_mb", VInt memory);
                            ("p99_latency_us", VInt p99);
                            ("error_rate", VInt 0)])].

(** Scenario C: 53 MB measured against 50 MB, 2 percent of violations
    against 1 percent. *)
Definition memory_verdict (os_name : string) : value :=
  verdict "failed" "ipc_memory_test" os_name
    [VFmt "Memory {:.2f} > {} MB" [VInt 53; VInt 50]]
    [VFmt "Latency violations {:.2f}% > {}%" [VInt 2; VInt 1]]
    0 53 0.

(** The result for a test no key of [throughput_table] matches. *)
Definition render_result : value :=
  no_baseline (record "render_benchmark" 91000 0 0 0) (VStr "render_benchmark").

(** A results directory with two files and the baselines beside it. *)
Definition batch : filesystem :=
  with_file
    (with_file
       (with_file no_files "baselines.json" memory_table)
       "out/linux_memory.json" (record "ipc_memory_test" 0 53 0 2))
    "out/linux_render.json" (record "render_benchmark" 91000 0 0 0).

Definition enforcing : arguments :=
  mkArguments "out" "baselines.json" None true.

Definition lenient : arguments :=
  mkArguments "out" "baselines.json" None false.

(** A results directory with one file, whose test no key of
    [throughput_table] matches. *)
Definition unmatched_batch : filesystem :=
  with_file (with_file no_files "baselines.json" throughput_table)
    "out/linux_render.json" (record "render_benchmark" 91000 0 0 0).

(** A measurement of latency against [capital_table]. *)
Definition latency_record : value :=
  record "IPC_Latency_Test" 0 0 500 0.

(** Scenario A with any measured throughput, and its verdict. *)
Definition throughput_record (t : value) : value :=
  metric_record "ipc_throughput_benchmark" t (VInt 0) (VInt 0) (VInt 0) (VInt 0).

Definition throughput_verdict (status : string) (failures : list value)
    (t : value) : value :=
  VDict [("status", VStr status);
         ("test_name", VStr "ipc_throughput_benchmark");
         ("os", VStr "linux");
         ("failures", VList failures);
         ("warnings", VList []);
         ("metrics", VDict [("throughput", t);
                            ("memory_mb", VInt 0);
                            ("p99_latency_us", VInt 0);
                            ("error_rate", VInt 0)])].

End Sample.

(** ** Further notions *)

(** An analysis whose status is one of the three the summary counts. *)
Definition plain_status (a : value) : Prop :=
  exists s, getitem a "status" = Ok (VStr s) /\
            (s = "passed" \/ s = "warning" \/ s = "failed").

(** A computation that writes no file. *)
Definition keeps_files {A : Type} (m : M A) : Prop :=
  forall w, written (fst (m w)) = written w.

(** ** More sample data *)

Module Edge.

(** Entries with an empty key between two others. *)
Definition hidden_entries : dict :=
  [("latency", VDict [("max_latency_p99_us", VInt 10)]);
   ("", Sample.throughput_entry);
   ("memory", Sample.memory_entry)].

(** A result file whose test name is a number. *)
Definition numbered : value := VDict [("test_name", VInt 7)].

(** A table for macos alone. *)
Definition macos_table : value :=
  baselines_json [("macos", VDict [("memory", Sample.memory_entry)])].

(** An entry whose keys are not the ones the script reads, with a tolerance
    that is not a number. *)
Definition misspelt_entry : dict :=
  [("min_throughput_msgs_per_sec", VInt 100000);
   ("max_violation_percent", VInt 1);
   ("tolerance_percent", VStr "ten")].

(** A result file whose error rate is a string, and its verdict against
    [Sample.memory_entry]. *)
Definition unrated : value :=
  VDict [("test_name", VStr "ipc_memory_test");
         ("throughput", VDict [("messages_per_second", VInt 0)]);
         ("memory", VDict [("peak_mb", VInt 53)]);
         ("latency", VDict [("p99_us", VInt 0);
                            ("violation_percentage", VInt 2)]);
         ("errors", VDict [("error_rate", VStr "n/a")])].

Definition unrated_verdict : value :=
  VDict [("status", VStr "failed");
         ("test_name", VStr "ipc_memory_test");
         ("os", VStr "linux");
         ("failures", VList [VFmt "Memory {:.2f} > {} MB" [VInt 53; VInt 50]]);
         ("warnings",
          VList [VFmt "Latency violations {:.2f}% > {}%" [VInt 2; VInt 1]]);
         ("metrics", VDict [("throughput", VInt 0);
                            ("memory_mb", VInt 53);
                            ("p99_latency_us", VInt 0);
                            ("error_rate", VStr "n/a")])].

End Edge.

(** * Properties *)

Import Sample.

(** ** Strings *)

Lemma prefix_split (a b : string) :
  String.prefix a b = true <-> exists rest, b = (a ++ rest)%string.
Proof.
  revert b. induction a as [|c a IH]; intros b; simpl.
  - destruct b; split; eauto.
  - destruct b as [|c' b].
    + split; [discriminate | intros [rest H]; discriminate].
    + simpl. destruct (ascii_dec c c') as [->|Hne].
      * rewrite IH. split; intros [rest H]; exists rest.
        -- now rewrite H.
        -- now injection H.
      * split; [discriminate | intros [rest H]; injection H; intros; congruence].
Qed.

Lemma str_in_substring (sub s : string) :
  str_in sub s = true <-> is_substring sub s.
Proof.
  unfold is_substring. induction s as [|c s IH]; cbn [str_in].
  - rewrite orb_false_r, prefix_split. split.
    + intros [rest H]. exists EmptyString, rest. exact H.
    + intros [[|c before] [after H]].
      * now exists after.
      * discriminate.
  - rewrite orb_true_iff, prefix_split, IH. split.
    + intros [[rest H] | [before [after H]]].
      * exists EmptyString, rest. exact H.
      * exists (String c before), after. simpl. now rewrite H.
    + intros [[|c' before] [after H]].
      * left. now exists after.
      * right. exists before, after. simpl in H. now injection H.
Qed.

Lemma str_in_not_substring (sub s : string) :
  str_in sub s = false <-> ~ is_substring sub s.
Proof.
  rewrite <- str_in_substring. destruct (str_in sub s); split; congruence.
Qed.

(** ** Interpreters *)

(** An interpreter is known by what its two methods do: on a string of
    ASCII characters they are the change of case of the letters, so there
    they may be computed. *)

Lemma builtins_ext (a b : Builtins) :
  (forall s, @str_lower a s = @str_lower b s) ->
  (forall s, @str_upper a s = @str_upper b s) -> a = b.
Proof.
  destruct a as [lo up Hlo Hup], b as [lo' up' Hlo' Hup']. cbn.
  intros L U. apply functional_extensionality in L, U. subst lo' up'.
  f_equal; apply proof_irrelevance.
Qed.

Lemma builtins_on_ascii (py : Builtins) : py = on_ascii py.
Proof.
  apply builtins_ext; intros s; cbn; destruct (is_ascii s) eqn:A;
    try reflexivity.
  - now apply str_lower_ascii.
  - now apply str_upper_ascii.
Qed.

(** Runs the script on given files, whatever the interpreter, when the
    strings whose case it changes are ASCII. *)
Ltac run_script :=
  match goal with
  | py : Builtins |- _ => rewrite (builtins_on_ascii py); vm_compute
  end.


(** ** Numbers *)

Lemma num_of_number (x : number) : num (of_number x) = Ok x.
Proof. destruct x; reflexivity. Qed.

Lemma float_field_same (v x : value) : float_field v = Ok x -> x = v.
Proof.
  destruct v; simpl; try congruence.
  destruct (int_to_float n); simpl; congruence.
Qed.

Lemma float_field_number (v : value) (x : number) (f : float) :
  num v = Ok x -> to_float x = Ok f -> float_field v = Ok v.
Proof.
  destruct v; simpl; try discriminate; try reflexivity.
  intros [= <-]. simpl. now intros ->.
Qed.

Lemma int_to_float_cases (n : Z) :
  (exists f, int_to_float n = Ok f) \/ int_to_float n = Raise OverflowError.
Proof.
  unfold int_to_float.
  destruct (binary_normalize prec emax n 0 false); eauto.
Qed.

Lemma int_truediv_cases (n : Z) :
  (exists r, int_truediv n 100 = Ok r) \/ int_truediv n 100 = Raise OverflowError.
Proof.
  unfold int_truediv. change (100 =? 0)%Z with false. cbv iota.
  destruct (SFdiv prec emax (exact n) (exact 100)); eauto.
Qed.

Lemma truediv_float (f : float) : exists r, truediv (Float f) (Int 100) = Ok r.
Proof. eexists. vm_compute. reflexivity. Qed.

Lemma mul_float (b : number) (r : float) :
  mul b (Float r) = rbind (to_float b) (fun fb => Ok (Float (fb * r)%float)).
Proof. destruct b; reflexivity. Qed.

Lemma sub_float (b : number) (r : float) :
  sub b (Float r) = rbind (to_float b) (fun fb => Ok (Float (fb - r)%float)).
Proof. destruct b; reflexivity. Qed.

Lemma add_float (b : number) (r : float) :
  add b (Float r) = rbind (to_float b) (fun fb => Ok (Float (fb + r)%float)).
Proof. destruct b; reflexivity. Qed.

(** The steps of [compare_metric] on three numbers: the hundredth of the
    tolerance, the bound as a float, and one exact comparison of the measured
    value with the rounded threshold. *)
Lemma compare_metric_steps (actual baseline tolerance_percent : value)
    (comparison : string) (a b t : number) :
  num actual = Ok a -> num baseline = Ok b -> num tolerance_percent = Ok t ->
  compare_metric actual baseline tolerance_percent comparison =
    (ratio <- truediv t (Int 100) ;;
     fb <- to_float b ;;
     Ok (if String.eqb comparison "min"
         then num_le (Float (fb - fb * ratio)%float) a
         else num_le a (Float (fb + fb * ratio)%float)))%res.
Proof.
  intros Ha Hb Ht. unfold compare_metric. rewrite Ht, Hb. cbn [rbind].
  destruct (truediv t (Int 100)) as [ratio|e]; [|reflexivity]. cbn [rbind].
  rewrite mul_float.
  destruct (to_float b) as [fb|e] eqn:F; [|reflexivity]. cbn [rbind].
  destruct (String.eqb comparison "min").
  - now rewrite sub_float, F, Ha.
  - now rewrite add_float, F, Ha.
Qed.

Lemma to_float_cases (b : number) :
  (exists f, to_float b = Ok f) \/
  (to_float b = Raise OverflowError /\ beyond_floats b).
Proof.
  destruct b as [n|f]; simpl; [|eauto].
  destruct (int_to_float_cases n) as [[f H]|H]; [eauto|].
  right. split; [exact H|]. now exists n.
Qed.

Lemma truediv_cases (t : number) :
  (exists r, truediv t (Int 100) = Ok r) \/
  (truediv t (Int 100) = Raise OverflowError /\ percent_beyond_floats t).
Proof.
  destruct t as [n|f].
  - change (truediv (Int n) (Int 100)) with (int_truediv n 100).
    destruct (int_truediv_cases n) as [[r H]|H]; [eauto|].
    right. split; [exact H|]. now exists n.
  - left. apply truediv_float.
Qed.

(** A call on numbers in the range of the floats returns. *)
Lemma compare_metric_total (actual baseline tolerance_percent : value)
    (comparison : string) (a : number) :
  num actual = Ok a ->
  in_float_range baseline -> in_float_range tolerance_percent ->
  exists answer,
    compare_metric actual baseline tolerance_percent comparison = Ok answer.
Proof.
  intros Ha (b & Hb & [fb Fb] & _) (t & Ht & _ & [r Hr]).
  rewrite (compare_metric_steps _ _ _ _ a b t Ha Hb Ht), Hr, Fb.
  cbn [rbind]. eauto.
Qed.

Lemma float_in_range (f : float) : in_float_range (VFloat f).
Proof.
  exists (Float f). split; [reflexivity|]. split; [now exists f|].
  apply truediv_float.
Qed.

(** ** The order of the numbers *)

Lemma xle_trans (x y z : xreal) : xle x y = true -> xle y z = true -> xle x z = true.
Proof.
  destruct x, y, z; simpl; try congruence.
  rewrite !Qle_bool_iff. apply Qle_trans.
Qed.

Lemma num_le_trans (a b c : number) :
  num_le a b = true -> num_le b c = true -> num_le a c = true.
Proof.
  unfold num_le.
  destruct (number_value a), (number_value b), (number_value c);
    try congruence.
  apply xle_trans.
Qed.

Lemma Qle_bool_equal (p p' q q' : Q) :
  p == p' -> q == q' -> Qle_bool p q = Qle_bool p' q'.
Proof. intros H1 H2. apply Qleb_comp; assumption. Qed.

(** Two numbers of the same value compare alike. *)
Lemma num_le_equal (a a' : number) (p p' : Q) :
  number_value a = Some (Fin p) -> number_value a' = Some (Fin p') -> p == p' ->
  forall x, num_le a x = num_le a' x /\ num_le x a = num_le x a'.
Proof.
  intros Ha Ha' E x. unfold num_le. rewrite Ha, Ha'.
  destruct (number_value x) as [[| q |]|]; simpl; split; try reflexivity;
    apply Qle_bool_equal; (assumption || reflexivity).
Qed.
(** ** The tolerance *)

(** C3 (amended). On three numbers the comparator divides the tolerance by
    100, multiplies the bound by the quotient and subtracts the product from
    the bound ("min") or adds it ("max"), each step in the arithmetic of the
    interpreter, where an operation with a float is rounded; it accepts
    exactly when the measured value is, in exact comparison, at least the
    threshold so computed ("min") or at most it ("max").  It raises only
    [OverflowError], and only for a bound that is an int beyond the floats
    or a tolerance that is an int whose hundredth is: on floats it always
    returns. *)
Theorem compare_metric_rounded (actual baseline tolerance_percent : value)
    (comparison : string) (a b t : number) :
  num actual = Ok a -> num baseline = Ok b -> num tolerance_percent = Ok t ->
  match compare_metric actual baseline tolerance_percent comparison with
  | Ok answer =>
      exists ratio tolerance threshold,
        truediv t (Int 100) = Ok ratio /\
        mul b (Float ratio) = Ok tolerance /\
        (if String.eqb comparison "min" then sub b tolerance
         else add b tolerance) = Ok threshold /\
        answer = (if String.eqb comparison "min" then num_le threshold a
                  else num_le a threshold)
  | Raise e =>
      e = OverflowError /\ (beyond_floats b \/ percent_beyond_floats t)
  end.
Proof.
  intros Ha Hb Ht. unfold compare_metric. rewrite Ht, Hb. cbn [rbind].
  destruct (truediv_cases t) as [[ratio ->]|[-> Ht']]; cbn [rbind]; [|auto].
  rewrite mul_float.
  destruct (to_float_cases b) as [[fb F]|[F Hb']]; rewrite F; cbn [rbind];
    [|auto].
  destruct (String.eqb comparison "min").
  - rewrite sub_float, F, Ha. cbn [rbind].
    exists ratio, (Float (fb * ratio)%float), (Float (fb - fb * ratio)%float).
    rewrite mul_float, sub_float, F. repeat split.
  - rewrite add_float, F, Ha. cbn [rbind].
    exists ratio, (Float (fb * ratio)%float), (Float (fb + fb * ratio)%float).
    rewrite mul_float, add_float, F. repeat split.
Qed.

(** The bound 100 with the tolerance 57 percent: the threshold computed is
    the float above 43, so 43 is refused, which [100 - 100 * 57 / 100 <= 43]
    would accept; and a bound of [10 ** 400] raises. *)
Lemma exact_rule_refuted :
  compare_metric (VInt 43) (VInt 100) (VInt 57) "min" = Ok false /\
  exact_rule 43 100 57 "min" = true /\
  compare_metric (VInt 0) (VInt (10 ^ 400)) (VInt 10) "min" = Raise OverflowError.
Proof. repeat split; vm_compute; reflexivity. Qed.

Lemma compare_metric_rounded_witness :
  match compare_metric (VInt 43) (VInt 100) (VInt 57) "min" with
  | Ok answer =>
      exists ratio tolerance threshold,
        truediv (Int 57) (Int 100) = Ok ratio /\
        mul (Int 100) (Float ratio) = Ok tolerance /\
        (if String.eqb "min" "min" then sub (Int 100) tolerance
         else add (Int 100) tolerance) = Ok threshold /\
        answer = (if String.eqb "min" "min" then num_le threshold (Int 43)
                  else num_le (Int 43) threshold)
  | Raise e =>
      e = OverflowError /\
      (beyond_floats (Int 100) \/ percent_beyond_floats (Int 57))
  end.
Proof.
  apply (compare_metric_rounded (VInt 43) (VInt 100) (VInt 57) "min"
           (Int 43) (Int 100) (Int 57));
    reflexivity.
Defined.

(** ** Exceptions *)

(** Splits a hypothesis [(x <- r ;; k) = Ok b] into the two runs. *)
Ltac bind_inv H :=
  match type of H with
  | rbind ?r _ = Ok _ =>
      let x := fresh "x" in
      let E := fresh "E" in
      destruct r as [x|] eqn:E; [cbn [rbind] in H | discriminate H]
  end.

Lemma not_contained (k : string) (v : value) :
  contains k v = Ok false -> forall x, getitem v k <> Ok x.
Proof.
  destruct v; simpl; try discriminate.
  intros [= H] x. unfold has_key in H.
  destruct (lookup k d); discriminate.
Qed.

(** ** The verdict *)

Lemma check_messages (results baseline tolerance : value)
    (bound_key section field comparison template : string) (ms : list value) :
  check results baseline tolerance bound_key section field comparison template
    = Ok ms ->
  forall m, In m ms <->
    breach results baseline tolerance bound_key section field comparison
      template m.
Proof.
  unfold check. intros H m.
  bind_inv H. destruct x as [|].
  - bind_inv H. rename x into sec, E0 into Hsec.
    bind_inv H. rename x into actual, E0 into Hactual.
    bind_inv H. rename x into bound, E0 into Hbound.
    bind_inv H. rename x into within, E0 into C.
    assert (Hget : getitem2 results section field = Ok actual).
    { unfold getitem2. now rewrite Hsec. }
    destruct within; cbn [negb] in H.
    + injection H as <-. split; [contradiction|].
      intros (actual' & bound' & Hb & Ha & C' & _).
      assert (actual' = actual) by congruence.
      assert (bound' = bound) by congruence. subst. congruence.
    + bind_inv H. apply float_field_same in E0. subst x.
      injection H as <-. split.
      * intros [<-|[]]. exists actual, bound. repeat split; assumption.
      * intros (actual' & bound' & Hb & Ha & _ & ->). left. congruence.
  - injection H as <-. split; [contradiction|].
    intros (actual & bound & Hb & _).
    destruct (not_contained _ _ E _ Hb).
Qed.

Lemma status_of_cases (failures warnings : list value) :
  (failures <> [] -> status_of failures warnings = "failed") /\
  (failures = [] -> warnings <> [] -> status_of failures warnings = "warning") /\
  (failures = [] -> warnings = [] -> status_of failures warnings = "passed").
Proof.
  destruct failures, warnings; simpl; repeat split; congruence.
Qed.

(** C2. When a metric record is evaluated against the baseline entry found
    for it, the failures are exactly the breaches of the throughput, memory
    and latency bounds, the warnings exactly the breaches of the violations
    bound, a breach being a measured value that [compare_metric] refuses;
    and the status is [failed] if there is a failure, else [warning] if
    there is a warning, else [passed]: one failure makes the verdict
    [failed] whatever the warnings.  (By [evaluate_returns] below the
    evaluation does return a verdict for every record and entry whose
    numbers are in the range of the floats.) *)
Theorem evaluate_verdict (results os_baselines test_name : value)
    (os_name key : string) (a : value) :
  evaluate results os_baselines test_name os_name key = Ok a ->
  exists baseline tolerance failures warnings status,
    getitem os_baselines key = Ok baseline /\
    get_default baseline "tolerance_percent" (VInt 10) = Ok tolerance /\
    getitem a "failures" = Ok (VList failures) /\
    getitem a "warnings" = Ok (VList warnings) /\
    getitem a "status" = Ok (VStr status) /\
    (forall m, In m failures <->
       throughput_breach results baseline tolerance m \/
       memory_breach results baseline tolerance m \/
       latency_breach results baseline tolerance m) /\
    (forall m, In m warnings <->
       violations_breach results baseline tolerance m) /\
    (forall m, violations_breach results baseline tolerance m ->
       ~ In m failures) /\
    (failures <> [] -> status = "failed") /\
    (failures = [] -> warnings <> [] -> status = "warning") /\
    (failures = [] -> warnings = [] -> status = "passed").
Proof.
  unfold evaluate. intros H.
  bind_inv H. rename x into baseline, E into Hbase.
  bind_inv H. rename x into tolerance, E into Htol.
  bind_inv H. rename x into f1, E into H1.
  bind_inv H. rename x into f2, E into H2.
  bind_inv H. rename x into f3, E into H3.
  bind_inv H. rename x into w1, E into H4.
  cbv zeta in H. repeat bind_inv H. injection H as <-.
  exists baseline, tolerance, (f1 ++ f2 ++ f3), w1,
    (status_of (f1 ++ f2 ++ f3) w1).
  assert (F : forall m, In m (f1 ++ f2 ++ f3) <->
                throughput_breach results baseline tolerance m \/
                memory_breach results baseline tolerance m \/
                latency_breach results baseline tolerance m).
  { intros m. rewrite !in_app_iff.
    rewrite (check_messages _ _ _ _ _ _ _ _ _ H1).
    rewrite (check_messages _ _ _ _ _ _ _ _ _ H2).
    rewrite (check_messages _ _ _ _ _ _ _ _ _ H3). reflexivity. }
  repeat (split; [first [assumption | reflexivity]|]).
  split.
  { intros m. apply (check_messages _ _ _ _ _ _ _ _ _ H4). }
  split.
  { intros m (? & ? & _ & _ & _ & ->) Hin.
    apply F in Hin.
    destruct Hin as [B|[B|B]];
      destruct B as (? & ? & _ & _ & _ & B);
      discriminate B. }
  apply status_of_cases.
Qed.

(** Scenario C, and the theorem at work on it. *)
Lemma evaluate_verdict_witness :
  evaluate (record "ipc_memory_test" 0 53 0 2) (VDict [("memory", memory_entry)])
    (VStr "ipc_memory_test") "linux" "memory" = Ok (memory_verdict "linux") /\
  exists baseline tolerance failures warnings status,
    getitem (VDict [("memory", memory_entry)]) "memory" = Ok baseline /\
    get_default baseline "tolerance_percent" (VInt 10) = Ok tolerance /\
    getitem (memory_verdict "linux") "failures" = Ok (VList failures) /\
    getitem (memory_verdict "linux") "warnings" = Ok (VList warnings) /\
    getitem (memory_verdict "linux") "status" = Ok (VStr status) /\
    (forall m, In m failures <->
       throughput_breach (record "ipc_memory_test" 0 53 0 2) baseline tolerance m \/
       memory_breach (record "ipc_memory_test" 0 53 0 2) baseline tolerance m \/
       latency_breach (record "ipc_memory_test" 0 53 0 2) baseline tolerance m) /\
    (forall m, In m warnings <->
       violations_breach (record "ipc_memory_test" 0 53 0 2) baseline tolerance m) /\
    (forall m,
       violations_breach (record "ipc_memory_test" 0 53 0 2) baseline tolerance m ->
       ~ In m failures) /\
    (failures <> [] -> status = "failed") /\
    (failures = [] -> warnings <> [] -> status = "warning") /\
    (failures = [] -> warnings = [] -> status = "passed").
Proof.
  split; [vm_compute; reflexivity|].
  apply (evaluate_verdict (record "ipc_memory_test" 0 53 0 2)
           (VDict [("memory", memory_entry)]) (VStr "ipc_memory_test")
           "linux" "memory" (memory_verdict "linux")).
  vm_compute. reflexivity.
Defined.

Example scenario_C_failed {py : Builtins} :
  run (record "ipc_memory_test" 0 53 0 2) memory_table "linux"
    = (start, Ok (memory_verdict "linux")).
Proof. run_script. reflexivity. Qed.

Lemma ten_in_range : in_float_range (VInt 10).
Proof.
  exists (Int 10). split; [reflexivity|].
  split; eexists; vm_compute; reflexivity.
Qed.

Lemma in_range_float_field (v : value) : in_float_range v -> float_field v = Ok v.
Proof.
  intros (x & Hx & [f Hf] & _). exact (float_field_number v x f Hx Hf).
Qed.

Lemma check_total (results : value) (d : dict) (tolerance actual : value)
    (bound_key section field comparison template : string) :
  numeric_entry d ->
  in_float_range tolerance ->
  getitem2 results section field = Ok actual ->
  in_float_range actual ->
  exists ms,
    check results (VDict d) tolerance bound_key section field comparison template
      = Ok ms.
Proof.
  intros Hd Ht Hg Ha. unfold check. cbn [contains rbind]. unfold has_key.
  destruct (lookup bound_key d) as [bound|] eqn:L; [|now exists []].
  unfold getitem2 in Hg.
  destruct (getitem results section) as [sec|]; [|discriminate].
  cbn [rbind] in Hg |- *. rewrite Hg. cbn [rbind getitem]. rewrite L.
  cbn [rbind].
  destruct Ha as (a & Na & Fa).
  destruct (compare_metric_total actual bound tolerance comparison a Na
              (Hd _ _ L) Ht) as [answer ->].
  cbn [rbind]. destruct answer; cbn [negb]; [eauto|].
  rewrite (in_range_float_field actual) by (exists a; now split).
  cbn [rbind]. eauto.
Qed.

(** The evaluation returns a verdict for every record with the fields of
    [metric_record] and every entry, when the four values compared and the
    values of the entry are numbers in the range of the floats. *)
Lemma evaluate_returns (tn : string)
    (throughput memory p99 violations error_rate : value)
    (entries d : dict) (test_name : value) (os_name key : string) :
  lookup key entries = Some (VDict d) ->
  numeric_entry d ->
  in_float_range throughput -> in_float_range memory ->
  in_float_range p99 -> in_float_range violations ->
  exists a,
    evaluate (metric_record tn throughput memory p99 violations error_rate)
      (VDict entries) test_name os_name key = Ok a.
Proof.
  intros L Hd R1 R2 R3 R4. unfold evaluate. cbn [getitem]. rewrite L.
  cbn [rbind get_default].
  assert (T : exists tolerance,
             match lookup "tolerance_percent" d with
             | Some x => Ok x
             | None => Ok (VInt 10)
             end = Ok tolerance /\ in_float_range tolerance).
  { destruct (lookup "tolerance_percent" d) as [x|] eqn:Lt.
    - exists x. split; [reflexivity | exact (Hd _ _ Lt)].
    - exists (VInt 10). split; [reflexivity | exact ten_in_range]. }
  destruct T as (tolerance & -> & Ht). cbn [rbind].
  set (results := metric_record tn throughput memory p99 violations error_rate).
  destruct (check_total results d tolerance throughput
              "min_throughput_msg_sec" "throughput" "messages_per_second" "min"
              "Throughput {:.0f} < {} msg/sec" Hd Ht eq_refl R1)
    as [f1 ->].
  destruct (check_total results d tolerance memory
              "max_memory_mb" "memory" "peak_mb" "max"
              "Memory {:.2f} > {} MB" Hd Ht eq_refl R2)
    as [f2 ->].
  destruct (check_total results d tolerance p99
              "max_latency_p99_us" "latency" "p99_us" "max"
              "P99 latency {:.2f} > {} μs" Hd Ht eq_refl R3)
    as [f3 ->].
  destruct (check_total results d tolerance violations
              "max_violations_percent" "latency" "violation_percentage" "max"
              "Latency violations {:.2f}% > {}%" Hd Ht eq_refl R4)
    as [w1 ->].
  cbn. eauto.
Qed.

(** ** The choice of the baseline *)

Lemma find_baseline_key_none {py : Builtins} (ks : list string) (tn : string) :
  (forall key, In key ks -> ~ is_substring key (str_lower tn)) ->
  find_baseline_key ks (VStr tn) = Ok None.
Proof.
  induction ks as [|key ks IH]; intros H; simpl; [reflexivity|].
  rewrite (proj2 (str_in_not_substring _ _) (H key (or_introl eq_refl))).
  apply IH. intros k Hk. apply H. now right.
Qed.

Lemma find_baseline_key_first {py : Builtins} (earlier later : list string)
    (key tn : string) :
  (forall k, In k earlier -> ~ is_substring k (str_lower tn)) ->
  is_substring key (str_lower tn) ->
  find_baseline_key (earlier ++ key :: later) (VStr tn) = Ok (Some key).
Proof.
  intros He Hk. induction earlier as [|k earlier IH]; simpl.
  - now rewrite (proj2 (str_in_substring _ _) Hk).
  - rewrite (proj2 (str_in_not_substring _ _) (He k (or_introl eq_refl))).
    apply IH. intros k' Hk'. apply He. now right.
Qed.

(** An analysis whose status is not [status] does not count. *)
Lemma count_status_skip (status : string) (before after : list value) (a s : value) :
  getitem a "status" = Ok s -> eq_str s status = false ->
  count_status status (before ++ a :: after) = count_status status (before ++ after).
Proof.
  intros Ha Hs. induction before as [|b before IH]; simpl.
  - rewrite Ha. simpl. rewrite Hs. now destruct (count_status status after).
  - now rewrite IH.
Qed.

Section Run.

(** One call [analyze_test_results(rf, bf, os_name)] whose two files load
    and whose baselines file has the key ['baselines']. *)
Context {py : Builtins}.
Variables (fs : filesystem) (rf bf os_name : string) (w : world).
Variables (results baselines table : value).
Hypothesis results_loaded : load_json fs rf = Ok results.
Hypothesis baselines_loaded : load_json fs bf = Ok baselines.
Hypothesis table_found : getitem baselines "baselines" = Ok table.

Lemma analyze_run (known : bool) :
  contains os_name table = Ok known ->
  analyze_test_results fs rf bf os_name w =
    (if known then w else warn_fallback os_name w,
     compare_with_baselines results table (platform known os_name)).
Proof.
  intros Hk. unfold analyze_test_results, bind, lift.
  rewrite results_loaded, baselines_loaded, table_found, Hk.
  destruct known; reflexivity.
Qed.

(** C1 (amended). When no key of the platform's entries occurs in the
    lower-cased test name, the result has the status [warning] (there is no
    status [unmatched]); it holds no failures and no warnings, and the
    summary counts it with the warnings, not as [passed] and not as
    [failed]. *)
Theorem no_matching_key_is_warning (known : bool) (entries : dict) (tn : string) :
  contains os_name table = Ok known ->
  getitem table (platform known os_name) = Ok (VDict entries) ->
  getitem results "test_name" = Ok (VStr tn) ->
  (forall key, In key (dict_keys entries) ->
     ~ is_substring key (str_lower tn)) ->
  let a := no_baseline results (VStr tn) in
  snd (analyze_test_results fs rf bf os_name w) = Ok a /\
  getitem a "status" = Ok (VStr "warning") /\
  get a "failures" = Ok VNone /\
  get a "warnings" = Ok VNone /\
  count_status "passed" [a] = Ok 0%nat /\
  count_status "failed" [a] = Ok 0%nat /\
  count_status "warning" [a] = Ok 1%nat.
Proof.
  intros Hk He Hn Hnone a.
  rewrite (analyze_run known Hk). cbn [snd].
  unfold compare_with_baselines. rewrite He, Hn. cbn [rbind keys].
  rewrite (find_baseline_key_none _ _ Hnone). cbn [rbind].
  repeat split.
Qed.

(** The keys of the platform's entries are tried in the order of the table,
    each as it is written, against the lower-cased test name: the first key
    that occurs in it is the one found, whatever keys follow, and when it is
    not empty its entry is the one the record is evaluated against. *)
Lemma first_matching_key_decides (known : bool) (entries : dict)
    (tn key : string) (earlier later : list string) :
  contains os_name table = Ok known ->
  getitem table (platform known os_name) = Ok (VDict entries) ->
  getitem results "test_name" = Ok (VStr tn) ->
  dict_keys entries = earlier ++ key :: later ->
  (forall k, In k earlier -> ~ is_substring k (str_lower tn)) ->
  is_substring key (str_lower tn) ->
  key <> "" ->
  find_baseline_key (dict_keys entries) (VStr tn) = Ok (Some key) /\
  snd (analyze_test_results fs rf bf os_name w) =
    evaluate results (VDict entries) (VStr tn) (platform known os_name) key.
Proof.
  intros Hk He Hn Hks Hearlier Hkey Hne.
  assert (F : find_baseline_key (dict_keys entries) (VStr tn) = Ok (Some key)).
  { rewrite Hks. now apply find_baseline_key_first. }
  split; [exact F|].
  rewrite (analyze_run known Hk). cbn [snd].
  unfold compare_with_baselines. rewrite He, Hn. cbn [rbind keys].
  rewrite F. cbn [rbind].
  now rewrite (proj2 (String.eqb_neq _ _) Hne).
Qed.

(** C8 (amended). For every platform that is not a key of the table (whose
    [linux] key exists), the call prints the warning and goes on as the call
    for [linux] does: the record is compared with the linux entries. *)
Theorem unknown_platform_falls_back :
  contains os_name table = Ok false ->
  contains "linux" table = Ok true ->
  analyze_test_results fs rf bf os_name w =
    analyze_test_results fs rf bf "linux" (warn_fallback os_name w) /\
  analyze_test_results fs rf bf os_name w =
    (warn_fallback os_name w, compare_with_baselines results table "linux").
Proof.
  intros Hk Hl. rewrite (analyze_run false Hk). split; [|reflexivity].
  unfold analyze_test_results, bind, lift.
  now rewrite results_loaded, baselines_loaded, table_found, Hl.
Qed.

End Run.

(** A test no key matches: the status is [warning], and nothing tells the
    result from a warning in the summary. *)
Lemma no_matching_key_not_unmatched :
  exists a,
    run (py := ascii_only) (record "render_benchmark" 91000 0 0 0)
      throughput_table "linux" = (start, Ok a) /\
    getitem a "status" = Ok (VStr "warning") /\
    getitem a "status" <> Ok (VStr "unmatched") /\
    summary [a] = Ok (0, 0, 1)%nat.
Proof.
  eexists. split; [vm_compute; reflexivity|]. split; [reflexivity|].
  split; [discriminate | reflexivity].
Qed.

Lemma no_matching_key_is_warning_witness :
  let a := no_baseline (record "render_benchmark" 91000 0 0 0)
             (VStr "render_benchmark") in
  snd (run (py := ascii_only) (record "render_benchmark" 91000 0 0 0)
         throughput_table "linux") = Ok a /\
  getitem a "status" = Ok (VStr "warning") /\
  get a "failures" = Ok VNone /\
  get a "warnings" = Ok VNone /\
  count_status "passed" [a] = Ok 0%nat /\
  count_status "failed" [a] = Ok 0%nat /\
  count_status "warning" [a] = Ok 1%nat.
Proof.
  apply (no_matching_key_is_warning (py := ascii_only)
           (files (record "render_benchmark" 91000 0 0 0) throughput_table)
           "results.json" "baselines.json" "linux" start
           (record "render_benchmark" 91000 0 0 0) throughput_table
           (VDict [("linux", VDict [("throughput", throughput_entry)])])
           eq_refl eq_refl eq_refl
           true [("throughput", throughput_entry)] "render_benchmark");
    try reflexivity.
  intros key [<-|[]]. apply str_in_not_substring. reflexivity.
Defined.

(** C5. The key is compared as it is written in the table: the key
    [Latency] is, without regard to case, a part of the test name
    [IPC_Latency_Test], and yet no baseline is found for the test, whose
    latency of 500 is fifty times the bound; with the key [latency] the same
    record fails. *)
Theorem capital_key_never_matches {py : Builtins} :
  str_in (str_lower "Latency") (str_lower "IPC_Latency_Test") = true /\
  find_baseline_key ["Latency"] (VStr "IPC_Latency_Test") = Ok None /\
  run latency_record capital_table "linux"
    = (start, Ok (no_baseline latency_record (VStr "IPC_Latency_Test"))) /\
  run latency_record lower_table "linux"
    = (start,
       Ok (verdict "failed" "IPC_Latency_Test" "linux"
             [VFmt "P99 latency {:.2f} > {} μs" [VInt 500; VInt 10]] []
             0 0 500)).
Proof. run_script. repeat split; reflexivity. Qed.

Lemma named_platform_used_as_is :
  run (py := ascii_only) (record "ipc_memory_test" 0 53 0 2) freebsd_table
    "freebsd" = (start, Ok (memory_verdict "freebsd")).
Proof. vm_compute. reflexivity. Qed.

Lemma unknown_platform_falls_back_witness :
  run (py := ascii_only) (record "ipc_memory_test" 0 53 0 2) memory_table "macos"
    = analyze_test_results (py := ascii_only)
        (files (record "ipc_memory_test" 0 53 0 2) memory_table)
        "results.json" "baselines.json" "linux" (warn_fallback "macos" start) /\
  run (py := ascii_only) (record "ipc_memory_test" 0 53 0 2) memory_table "macos"
    = (warn_fallback "macos" start,
       compare_with_baselines (py := ascii_only)
         (record "ipc_memory_test" 0 53 0 2)
         (VDict [("linux", VDict [("memory", memory_entry)])]) "linux").
Proof.
  apply (unknown_platform_falls_back (py := ascii_only)
           (files (record "ipc_memory_test" 0 53 0 2) memory_table)
           "results.json" "baselines.json" "macos" start
           (record "ipc_memory_test" 0 53 0 2) memory_table
           (VDict [("linux", VDict [("memory", memory_entry)])])
           eq_refl eq_refl eq_refl);
    reflexivity.
Defined.

(** ** Loading the baselines *)

Lemma lookup_app_other (k extra : string) (v : value) (d : dict) :
  extra <> k -> lookup k (d ++ [(extra, v)]) = lookup k d.
Proof.
  intros Hne. induction d as [|[k' v'] d IH]; simpl.
  - now rewrite (proj2 (String.eqb_neq _ _) Hne).
  - now rewrite IH.
Qed.

Lemma load_with_file (fs : filesystem) (path : string) (v : value) :
  load_json (with_file fs path v) path = Ok v.
Proof. unfold load_json, with_file. now rewrite String.eqb_refl. Qed.

Lemma load_other_file (fs : filesystem) (path other : string) (v : value) :
  other <> path ->
  load_json (with_file fs path v) other = load_json fs other.
Proof.
  intros Hne. unfold load_json, with_file.
  now rewrite (proj2 (String.eqb_neq _ _) Hne).
Qed.

(** C9 (amended). Nothing is checked when the baselines are loaded:
    [load_json] returns whatever the file holds, negative bounds included,
    and a platform key that is neither the one asked for nor [linux] changes
    nothing in the analysis. *)
Theorem baselines_loaded_unchecked {py : Builtins} (fs : filesystem)
    (rf bf os_name : string)
    (w : world) (content : value) (platforms : dict) (extra : string) (v : value) :
  rf <> bf -> extra <> os_name -> extra <> "linux" ->
  load_json (with_file fs bf content) bf = Ok content /\
  analyze_test_results
    (with_file fs bf (baselines_json (platforms ++ [(extra, v)])))
    rf bf os_name w =
  analyze_test_results
    (with_file fs bf (baselines_json platforms)) rf bf os_name w.
Proof.
  intros Hrf Hos Hlinux. split; [apply load_with_file|].
  unfold analyze_test_results, bind, lift.
  rewrite (load_other_file fs bf rf (baselines_json platforms) Hrf).
  rewrite (load_other_file fs bf rf (baselines_json (platforms ++ [(extra, v)])) Hrf).
  destruct (load_json fs rf) as [results|e]; [|reflexivity].
  rewrite !load_with_file.
  cbn [getitem baselines_json lookup String.eqb Ascii.eqb Bool.eqb].
  cbn [contains]. unfold has_key. rewrite lookup_app_other by assumption.
  destruct (lookup os_name platforms) as [x|] eqn:L; cbn [negb ret print].
  - unfold compare_with_baselines. cbn [getitem].
    now rewrite lookup_app_other, L by assumption.
  - unfold compare_with_baselines. cbn [getitem].
    now rewrite lookup_app_other by assumption.
Qed.

Lemma odd_table_is_evaluated :
  load_json (files (record "ipc_throughput" 0 53 0 2) odd_table) "baselines.json"
    = Ok odd_table /\
  run (py := ascii_only) (record "ipc_throughput" 0 53 0 2) odd_table "linux"
    = (start, Ok (verdict "failed" "ipc_throughput" "linux"
                    [VFmt "Memory {:.2f} > {} MB" [VInt 53; VInt (-5)]] []
                    0 53 0)).
Proof. split; vm_compute; reflexivity. Qed.

Lemma baselines_loaded_unchecked_witness :
  load_json
    (with_file (with_file no_files "results.json" (record "ipc_throughput" 0 53 0 2))
       "baselines.json" odd_table)
    "baselines.json" = Ok odd_table /\
  analyze_test_results (py := ascii_only)
    (with_file (with_file no_files "results.json" (record "ipc_throughput" 0 53 0 2))
       "baselines.json" (baselines_json (odd_platforms ++ [("plan9", VStr "fast")])))
    "results.json" "baselines.json" "linux" start =
  analyze_test_results (py := ascii_only)
    (with_file (with_file no_files "results.json" (record "ipc_throughput" 0 53 0 2))
       "baselines.json" (baselines_json odd_platforms))
    "results.json" "baselines.json" "linux" start.
Proof.
  apply (baselines_loaded_unchecked (py := ascii_only)
           (with_file no_files "results.json" (record "ipc_throughput" 0 53 0 2))
           "results.json" "baselines.json" "linux" start odd_table
           odd_platforms "plan9" (VStr "fast"));
    discriminate.
Defined.

(** ** The summary *)

Lemma count_status_total (status : string) (analyses : list value) :
  Forall has_status analyses -> exists n, count_status status analyses = Ok n.
Proof.
  induction 1 as [|a rest [s Hs] _ [n IH]]; simpl.
  - now exists 0%nat.
  - rewrite Hs, IH. simpl. eauto.
Qed.

Lemma count_status_permutation (status : string) (l l' : list value) :
  Permutation l l' -> Forall has_status l ->
  count_status status l = count_status status l'.
Proof.
  induction 1 as [|a l l' _ IH|a b l|l l' l'' P1 IH1 P2 IH2]; intros F.
  - reflexivity.
  - simpl. inversion F; subst. now rewrite IH.
  - inversion F as [|? ? [sb Hb] F']; subst.
    inversion F' as [|? ? [sa Ha] F'']; subst.
    destruct (count_status_total status l F'') as [n Hn].
    simpl. rewrite Ha, Hb, Hn. simpl.
    now destruct (eq_str sa status), (eq_str sb status).
  - rewrite IH1 by assumption. apply IH2.
    now apply (Permutation_Forall P1).
Qed.

(** C6. For every sequence of verdicts, each with its status, a permutation
    of the sequence leaves the three counts and with them the head of the
    report (the status banner and the counts) as they are. *)
Theorem summary_order_independent (l l' : list value) :
  Permutation l l' -> Forall has_status l ->
  summary l = summary l' /\ report_head l = report_head l'.
Proof.
  intros P F.
  assert (S : summary l = summary l').
  { unfold summary.
    now rewrite !(count_status_permutation _ l l' P F). }
  split; [exact S|]. unfold report_head. now rewrite S.
Qed.

Lemma summary_order_independent_witness :
  summary [memory_verdict "linux"; render_result]
    = summary [render_result; memory_verdict "linux"] /\
  report_head [memory_verdict "linux"; render_result]
    = report_head [render_result; memory_verdict "linux"].
Proof.
  apply (summary_order_independent
           [memory_verdict "linux"; render_result]
           [render_result; memory_verdict "linux"]).
  - apply perm_swap.
  - repeat constructor; eexists; reflexivity.
Defined.

(** ** The exit status *)

Lemma banner_failed (failed warnings : nat) :
  banner failed warnings = failed_banner <-> (0 < failed)%nat.
Proof.
  unfold banner. destruct (Nat.ltb_spec 0 failed) as [H|H].
  - tauto.
  - split; [|lia]. destruct (0 <? warnings)%nat; discriminate.
Qed.

(** Lines 226-232 as a function of the flag and the batch: the status is 1
    exactly when [--fail-on-regression] is given and the banner of the batch
    is the one for FAILED, and 0 otherwise.  [main] reaches these lines only
    when the report is generated ([main_exit_code] below). *)
Lemma exit_code_enforced (enforce : bool) (analyses : list value)
    (passed failed warnings : nat) :
  summary analyses = Ok (passed, failed, warnings) ->
  exit_code false analyses = Ok 0%Z /\
  exit_code enforce analyses
    = Ok (if enforce && (0 <? failed)%nat then 1%Z else 0%Z) /\
  (exit_code enforce analyses = Ok 1%Z <->
     enforce = true /\ banner failed warnings = failed_banner).
Proof.
  unfold summary. intros H.
  bind_inv H. bind_inv H. bind_inv H. injection H as -> -> ->.
  assert (G : exit_code enforce analyses
                = Ok (if enforce && (0 <? failed)%nat then 1%Z else 0%Z)).
  { unfold exit_code. destruct enforce; [|reflexivity].
    rewrite E0. simpl. now destruct (0 <? failed)%nat. }
  split; [reflexivity|]. split; [exact G|].
  rewrite G, banner_failed, <- Nat.ltb_lt.
  destruct enforce, (0 <? failed)%nat; simpl; split;
    try discriminate; try tauto; intros [? ?]; discriminate.
Qed.

(** ** The report *)

Lemma report_head_total (analyses : list value) :
  Forall has_status analyses -> exists head, report_head analyses = Ok head.
Proof.
  intros F. unfold report_head, summary.
  destruct (count_status_total "passed" _ F) as [p ->].
  destruct (count_status_total "failed" _ F) as [f ->].
  destruct (count_status_total "warning" _ F) as [x ->].
  simpl. eauto.
Qed.

Lemma report_sections_no_baseline (before after : list value)
    (results test_name : value) :
  Forall renders before ->
  report_sections (before ++ no_baseline results test_name :: after)
    = Raise (KeyError "test_name").
Proof.
  induction 1 as [|a before [pieces Ha] _ IH]; simpl.
  - reflexivity.
  - now rewrite Ha, IH.
Qed.

Lemma renders_has_status (a : value) : renders a -> has_status a.
Proof.
  intros [pieces H]. unfold report_section in H. bind_inv H. now exists x.
Qed.

Lemma no_baseline_has_status (results test_name : value) :
  has_status (no_baseline results test_name).
Proof. now exists (VStr "warning"). Qed.

(** C10. When an analysis of the batch is the result of the no-baseline
    branch, whose keys are [status], [message] and [details], and the
    analyses before it render, the report generation raises
    [KeyError('test_name')]: no report is returned for the batch. *)
Theorem report_fails_on_no_baseline (before after : list value)
    (results test_name : value) :
  Forall renders before ->
  Forall has_status after ->
  (exists d, no_baseline results test_name = VDict d /\
             dict_keys d = ["status"; "message"; "details"]) /\
  report_section (no_baseline results test_name) = Raise (KeyError "test_name") /\
  generate_markdown_report (before ++ no_baseline results test_name :: after)
    = Raise (KeyError "test_name").
Proof.
  intros Hb Ha. split; [eexists; split; reflexivity|]. split; [reflexivity|].
  unfold generate_markdown_report.
  destruct (report_head_total (before ++ no_baseline results test_name :: after))
    as [head ->].
  - apply Forall_app. split.
    + revert Hb. apply Forall_impl, renders_has_status.
    + constructor; [apply no_baseline_has_status | exact Ha].
  - cbn [rbind]. now rewrite report_sections_no_baseline.
Qed.

Lemma report_fails_on_no_baseline_witness :
  (exists d, render_result = VDict d /\
             dict_keys d = ["status"; "message"; "details"]) /\
  report_section render_result = Raise (KeyError "test_name") /\
  generate_markdown_report ([memory_verdict "linux"] ++ render_result :: [])
    = Raise (KeyError "test_name").
Proof.
  apply (report_fails_on_no_baseline [memory_verdict "linux"] []
           (record "render_benchmark" 91000 0 0 0) (VStr "render_benchmark")).
  - repeat constructor. eexists. reflexivity.
  - constructor.
Defined.

(** ** The batch of [main] *)

Lemma evaluate_has_status (results os_baselines test_name : value)
    (os_name key : string) (a : value) :
  evaluate results os_baselines test_name os_name key = Ok a -> has_status a.
Proof.
  unfold evaluate. intros H. repeat bind_inv H. cbv zeta in H.
  repeat bind_inv H. injection H as <-. eexists. reflexivity.
Qed.

Lemma compare_with_baselines_has_status {py : Builtins} (results table : value)
    (os_name : string) (a : value) :
  compare_with_baselines results table os_name = Ok a -> has_status a.
Proof.
  unfold compare_with_baselines. intros H. repeat bind_inv H.
  destruct x2 as [key|].
  - destruct (String.eqb key "").
    + injection H as <-. apply no_baseline_has_status.
    + eapply evaluate_has_status, H.
  - injection H as <-. apply no_baseline_has_status.
Qed.

Lemma analyze_has_status {py : Builtins} (fs : filesystem) (rf bf os_name : string)
    (w w' : world) (a : value) :
  analyze_test_results fs rf bf os_name w = (w', Ok a) -> has_status a.
Proof.
  unfold analyze_test_results, bind, lift. intros H.
  destruct (load_json fs rf) as [results|]; [|discriminate].
  destruct (load_json fs bf) as [baselines|]; [|discriminate].
  destruct (getitem baselines "baselines") as [table|]; [|discriminate].
  destruct (contains os_name table) as [known|]; [|discriminate].
  destruct known; simpl in H; injection H as _ H;
    eapply compare_with_baselines_has_status, H.
Qed.

Lemma process_appends {py : Builtins} (fs : filesystem) (args : arguments)
    (analyses : list value) (result_file : string) (w : world) :
  exists w' added,
    process fs args analyses result_file w = (w', Ok (analyses ++ added)) /\
    Forall has_status added.
Proof.
  unfold process, bind, try_except, ret.
  destruct (analyze_test_results fs result_file (baselines_path args)
              (detect_os result_file) w) as [w1 [a|e]] eqn:A.
  - destruct (print_summary a (detect_os result_file) w1) as [w2 [[]|e]];
      simpl; eexists; exists [a]; (split; [reflexivity|]);
      repeat constructor; eapply analyze_has_status, A.
  - simpl. eexists. exists []. rewrite app_nil_r. split; [reflexivity|constructor].
Qed.

Lemma process_all_appends {py : Builtins} (fs : filesystem) (args : arguments)
    (result_files : list string) (analyses : list value) (w : world) :
  exists w' added,
    process_all fs args analyses result_files w = (w', Ok (analyses ++ added)) /\
    Forall has_status added.
Proof.
  revert analyses w. induction result_files as [|f rest IH]; intros analyses w.
  - exists w, []. rewrite app_nil_r. split; [reflexivity|constructor].
  - destruct (process_appends fs args analyses f w) as (w1 & a1 & P & F1).
    destruct (IH (analyses ++ a1) w1) as (w2 & a2 & Q & F2).
    exists w2, (a1 ++ a2). simpl. unfold bind. rewrite P, Q, <- app_assoc.
    split; [reflexivity|]. apply Forall_app. now split.
Qed.

(** The loop of [main] never raises, and every analysis it collects has a
    status: the counts and the exit status are defined for the batch. *)
Lemma main_batch_has_status {py : Builtins} (fs : filesystem) (args : arguments)
    (result_files : list string) (w : world) :
  exists w' analyses,
    process_all fs args [] result_files w = (w', Ok analyses) /\
    Forall has_status analyses.
Proof. apply (process_all_appends fs args result_files [] w). Qed.

(** An exception of the report generation is not caught: [main] ends with
    it, in the world the loop left, so nothing of a report is printed or
    written and the exit status of lines 226-232 is not reached. *)
Lemma main_report_exception {py : Builtins} (fs : filesystem) (args : arguments)
    (result_files : list string) (w w' : world) (analyses : list value) (e : exn) :
  process_all fs args [] result_files w = (w', Ok analyses) ->
  generate_markdown_report analyses = Raise e ->
  main fs args result_files w = (w', Raise e) /\
  process_status (snd (main fs args result_files w)) = 1%Z.
Proof.
  intros P G. unfold main, bind, lift. now rewrite P, G.
Qed.

(** When the report is generated, [main] ends with the exit status of lines
    226-232. *)
Lemma main_exit_code {py : Builtins} (fs : filesystem) (args : arguments)
    (result_files : list string) (w w' : world) (analyses report : list value) :
  process_all fs args [] result_files w = (w', Ok analyses) ->
  generate_markdown_report analyses = Ok report ->
  snd (main fs args result_files w)
    = exit_code (fail_on_regression args) analyses.
Proof.
  intros P G. unfold main, bind, lift. rewrite P, G.
  destruct (output args) as [path|]; [destruct (String.eqb path "")|];
    reflexivity.
Qed.

(** A run of [main] on two result files, the second without a baseline:
    the loop collects both analyses, the report generation raises, nothing is
    written and the process ends with status 1, whatever the flag. *)
Example main_on_batch {py : Builtins} :
  snd (process_all batch enforcing []
         ["out/linux_memory.json"; "out/linux_render.json"] start)
    = Ok [memory_verdict "linux"; render_result] /\
  snd (main batch enforcing
         ["out/linux_memory.json"; "out/linux_render.json"] start)
    = Raise (KeyError "test_name") /\
  written (fst (main batch enforcing
                  ["out/linux_memory.json"; "out/linux_render.json"] start))
    = [].
Proof. run_script. repeat split; reflexivity. Qed.

(** The same run on the first file alone: the report is printed and the
    failed analysis gives the exit status 1. *)
Example main_on_failed_run {py : Builtins} :
  snd (main batch enforcing ["out/linux_memory.json"] start) = Ok 1%Z.
Proof. run_script. reflexivity. Qed.

(** C7. Without [--fail-on-regression], a results directory whose one test
    has no baseline: the analysis is collected, lines 226-232 would give the
    status 0 for the batch, and [main] never reaches them: the report
    generation raises [KeyError('test_name')] and the process ends with the
    status 1. *)
Theorem unmatched_run_exits_one {py : Builtins} :
  snd (process_all unmatched_batch lenient [] ["out/linux_render.json"] start)
    = Ok [render_result] /\
  exit_code (fail_on_regression lenient) [render_result] = Ok 0%Z /\
  snd (main unmatched_batch lenient ["out/linux_render.json"] start)
    = Raise (KeyError "test_name") /\
  process_status (snd (main unmatched_batch lenient ["out/linux_render.json"]
                         start)) = 1%Z.
Proof. run_script. repeat split; reflexivity. Qed.

(** ** Scenario A *)

Lemma scenario_A_passes :
  compare_metric (VInt 91000) (VInt 100000) (VInt 10) "min" = Ok true /\
  run (py := ascii_only) (record "ipc_throughput_benchmark" 91000 0 0 0)
    throughput_table "linux"
    = (start, Ok (verdict "passed" "ipc_throughput_benchmark" "linux" [] []
                    91000 0 0)).
Proof. split; vm_compute; reflexivity. Qed.

(** The threshold of scenario A is the float 90000. *)
Lemma scenario_A_compare (actual : value) (t : number) :
  num actual = Ok t ->
  compare_metric actual (VInt 100000) (VInt 10) "min"
    = Ok (num_le (Int 90000) t).
Proof.
  intros Ht.
  rewrite (compare_metric_steps actual (VInt 100000) (VInt 10) "min"
             t (Int 100000) (Int 10) Ht eq_refl eq_refl).
  transitivity (Ok (num_le (Float 90000) t)); [vm_compute; reflexivity|].
  f_equal.
  eapply (num_le_equal (Float 90000) (Int 90000));
    [vm_compute; reflexivity | reflexivity | vm_compute; reflexivity].
Qed.

(** C4 (amended). With the bound 100000 msg/sec and the tolerance 10
    percent, a measured throughput passes the check exactly when it is at
    least 90000: 91000 passes, and the status is [failed] only below 90000.
    The verdict [failed] carries the one message, whose first field is the
    measured value in a float format; a measured float always gets its
    verdict. *)
Theorem scenario_A_threshold {py : Builtins} (t : number) :
  compare_metric (of_number t) (VInt 100000) (VInt 10) "min"
    = Ok (num_le (Int 90000) t) /\
  snd (run (throughput_record (of_number t)) throughput_table "linux")
    = (if num_le (Int 90000) t then
         Ok (throughput_verdict "passed" [] (of_number t))
       else
         _ <- float_field (of_number t) ;;
         Ok (throughput_verdict "failed"
               [VFmt "Throughput {:.0f} < {} msg/sec"
                  [of_number t; VInt 100000]]
               (of_number t)))%res /\
  (forall f, t = Float f ->
     exists a,
       snd (run (throughput_record (of_number t)) throughput_table "linux")
         = Ok a /\
       getitem a "status"
         = Ok (VStr (if num_le (Int 90000) t then "passed" else "failed"))).
Proof.
  pose proof (scenario_A_compare (of_number t) t (num_of_number t)) as C.
  assert (R : snd (run (throughput_record (of_number t)) throughput_table "linux")
              = (if num_le (Int 90000) t then
                   Ok (throughput_verdict "passed" [] (of_number t))
                 else
                   _ <- float_field (of_number t) ;;
                   Ok (throughput_verdict "failed"
                         [VFmt "Throughput {:.0f} < {} msg/sec"
                            [of_number t; VInt 100000]]
                         (of_number t)))%res).
  { unfold run.
    rewrite (analyze_run
               (files (throughput_record (of_number t)) throughput_table)
               "results.json" "baselines.json" "linux" start
               (throughput_record (of_number t))
               throughput_table
               (VDict [("linux", VDict [("throughput", throughput_entry)])])
               eq_refl eq_refl eq_refl true) by reflexivity.
    cbn [snd platform]. unfold compare_with_baselines.
    cbn [getitem lookup String.eqb Ascii.eqb Bool.eqb throughput_record
           metric_record rbind keys dict_keys map fst].
    rewrite (find_baseline_key_first [] [] "throughput")
      by (try (rewrite str_lower_ascii by reflexivity;
               apply str_in_substring; reflexivity);
          intros k []).
    cbn -[compare_metric num_le float_field]. rewrite C.
    cbn -[num_le float_field].
    destruct (num_le (Int 90000) t); cbn -[float_field]; [reflexivity|].
    destruct (float_field (of_number t)) as [shown|e] eqn:F; [|reflexivity].
    apply float_field_same in F. now subst shown. }
  split; [exact C|]. split; [exact R|].
  intros f ->. rewrite R. cbn [of_number float_field rbind].
  destruct (num_le (Int 90000) (Float f)); eexists; split; reflexivity.
Qed.

(** * Further properties *)

Import Edge.

(** ** More on the tolerance *)

(** For a bound and a tolerance, every call ends with the same exception or
    compares the measured value with the same threshold. *)
Lemma compare_metric_threshold (baseline tolerance_percent : value)
    (comparison : string) :
  (exists e, forall actual,
     compare_metric actual baseline tolerance_percent comparison = Raise e) \/
  (exists threshold, forall actual,
     compare_metric actual baseline tolerance_percent comparison =
       rbind (num actual) (fun a =>
         Ok (if String.eqb comparison "min" then num_le threshold a
             else num_le a threshold))).
Proof.
  unfold compare_metric.
  destruct (num tolerance_percent) as [t|e]; cbn [rbind]; [|eauto].
  destruct (truediv t (Int 100)) as [ratio|e]; cbn [rbind]; [|eauto].
  destruct (num baseline) as [b|e]; cbn [rbind]; [|eauto].
  destruct (mul b (Float ratio)) as [tolerance|e]; cbn [rbind]; [|eauto].
  destruct (String.eqb comparison "min").
  - destruct (sub b tolerance) as [lowest|e]; cbn [rbind]; eauto.
  - destruct (add b tolerance) as [highest|e]; cbn [rbind]; eauto.
Qed.

(** X1. The comparator is monotone in the measured value: with "min" a
    value above an accepted one is accepted, with "max" a value below an
    accepted one is accepted. *)
Theorem compare_metric_monotone (actual actual' baseline tolerance_percent : value)
    (a a' : number) :
  num actual = Ok a -> num actual' = Ok a' -> num_le a a' = true ->
  Bool.le (accepted (compare_metric actual baseline tolerance_percent "min"))
    (accepted (compare_metric actual' baseline tolerance_percent "min")) /\
  Bool.le (accepted (compare_metric actual' baseline tolerance_percent "max"))
    (accepted (compare_metric actual baseline tolerance_percent "max")).
Proof.
  intros Ha Ha' H. split.
  - destruct (compare_metric_threshold baseline tolerance_percent "min")
      as [[e R]|[threshold R]]; rewrite !R; [exact I|].
    rewrite Ha, Ha'. cbn.
    destruct (num_le threshold a) eqn:E; [|exact I]. simpl.
    exact (num_le_trans _ _ _ E H).
  - destruct (compare_metric_threshold baseline tolerance_percent "max")
      as [[e R]|[threshold R]]; rewrite !R; [exact I|].
    rewrite Ha, Ha'. cbn.
    destruct (num_le a' threshold) eqn:E; [|exact I]. simpl.
    exact (num_le_trans _ _ _ H E).
Qed.

Lemma compare_metric_monotone_witness :
  Bool.le
    (accepted (compare_metric (VInt 90000) (VInt 100000) (VInt 10) "min"))
    (accepted (compare_metric (VInt 91000) (VInt 100000) (VInt 10) "min")) /\
  Bool.le
    (accepted (compare_metric (VInt 91000) (VInt 100000) (VInt 10) "max"))
    (accepted (compare_metric (VInt 90000) (VInt 100000) (VInt 10) "max")).
Proof.
  apply (compare_metric_monotone (VInt 90000) (VInt 91000) (VInt 100000)
           (VInt 10) (Int 90000) (Int 91000));
    reflexivity.
Defined.

(** A float that is a number keeps its value when its product with zero is
    subtracted from it or added to it. *)
Lemma float_value_without_slack (b : float) :
  finite b ->
  float_value (b - b * 0)%float = float_value b /\
  float_value (b + b * 0)%float = float_value b.
Proof.
  intros [q Hq]. unfold float_value in *.
  rewrite sub_spec, add_spec, mul_spec.
  change (Prim2SF 0) with (S754_zero false).
  destruct (Prim2SF b) as [s|s| |s m e].
  - destruct s; split; reflexivity.
  - destruct s; discriminate.
  - discriminate.
  - split; reflexivity.
Qed.

(** X3. With the tolerance 0 and a bound that is a float (neither NaN nor
    an infinity) there is no slack: "min" accepts exactly the values
    [>= bound], "max" exactly the values [<= bound]. *)
Theorem compare_metric_without_slack (actual : value) (a : number) (b : float) :
  num actual = Ok a -> finite b ->
  compare_metric actual (VFloat b) (VInt 0) "min" = Ok (num_le (Float b) a) /\
  compare_metric actual (VFloat b) (VInt 0) "max" = Ok (num_le a (Float b)).
Proof.
  intros Ha Hb.
  destruct (float_value_without_slack b Hb) as [S A].
  rewrite !(compare_metric_steps actual (VFloat b) (VInt 0) _
              a (Float b) (Int 0) Ha eq_refl eq_refl).
  change (truediv (Int 0) (Int 100)) with (Ok 0%float).
  cbn [rbind to_float String.eqb Ascii.eqb Bool.eqb].
  unfold num_le. cbn [number_value]. now rewrite S, A.
Qed.

Lemma compare_metric_without_slack_witness :
  compare_metric (VInt 50) (VFloat 50) (VInt 0) "min"
    = Ok (num_le (Float 50) (Int 50)) /\
  compare_metric (VInt 50) (VFloat 50) (VInt 0) "max"
    = Ok (num_le (Int 50) (Float 50)).
Proof.
  apply (compare_metric_without_slack (VInt 50) (Int 50) 50%float).
  - reflexivity.
  - eexists. vm_compute. reflexivity.
Defined.

(** ** More on the choice of the baseline *)

(** X4. On a test name that is a string the search for the key never raises;
    the key it finds is a key of the table that occurs in the lower-cased
    name and no key before it does; it finds none only when no key
    occurs. *)
Theorem find_baseline_key_found {py : Builtins} (ks : list string) (tn : string) :
  match find_baseline_key ks (VStr tn) with
  | Ok (Some key) =>
      exists earlier later,
        ks = earlier ++ key :: later /\
        (forall k, In k earlier -> ~ is_substring k (str_lower tn)) /\
        is_substring key (str_lower tn)
  | Ok None => forall k, In k ks -> ~ is_substring k (str_lower tn)
  | Raise _ => False
  end.
Proof.
  induction ks as [|k ks IH]; simpl.
  - intros k [].
  - destruct (str_in k (str_lower tn)) eqn:E.
    + exists [], ks. repeat split.
      * intros k' [].
      * now apply str_in_substring.
    + apply str_in_not_substring in E.
      destruct (find_baseline_key ks (VStr tn)) as [[key|]|e]; [| |exact IH].
      * destruct IH as (earlier & later & -> & He & Hk).
        exists (k :: earlier), later. repeat split; [|exact Hk].
        intros k' [<-|Hin]; [exact E | now apply He].
      * intros k' [<-|Hin]; [exact E | now apply IH].
Qed.

Lemma is_substring_empty (s : string) : is_substring "" s.
Proof. now exists "", s. Qed.

Section Resolution.

Context {py : Builtins}.
Variables (fs : filesystem) (rf bf os_name : string) (w : world).
Variables (results baselines table : value) (known : bool) (entries : dict).
Hypothesis results_loaded : load_json fs rf = Ok results.
Hypothesis baselines_loaded : load_json fs bf = Ok baselines.
Hypothesis table_found : getitem baselines "baselines" = Ok table.
Hypothesis platform_known : contains os_name table = Ok known.
Hypothesis entries_found :
  getitem table (platform known os_name) = Ok (VDict entries).

Lemma analyze_resolved (test_name : value) :
  getitem results "test_name" = Ok test_name ->
  snd (analyze_test_results fs rf bf os_name w) =
    rbind (find_baseline_key (dict_keys entries) test_name)
      (fun baseline_key =>
         match baseline_key with
         | Some key =>
             if String.eqb key "" then Ok (no_baseline results test_name)
             else evaluate results (VDict entries) test_name
                    (platform known os_name) key
         | None => Ok (no_baseline results test_name)
         end).
Proof.
  intros Hn.
  rewrite (analyze_run fs rf bf os_name w results baselines table
             results_loaded baselines_loaded table_found known platform_known).
  cbn [snd]. unfold compare_with_baselines.
  now rewrite entries_found, Hn.
Qed.

(** X6. An empty key is found in every test name and is then taken for no
    key: when no key before it occurs in the name, the result is the
    no-baseline result, whatever keys follow it. *)
Theorem empty_key_hides_later_entries (tn : string) (earlier later : list string) :
  getitem results "test_name" = Ok (VStr tn) ->
  dict_keys entries = earlier ++ "" :: later ->
  (forall k, In k earlier -> ~ is_substring k (str_lower tn)) ->
  snd (analyze_test_results fs rf bf os_name w)
    = Ok (no_baseline results (VStr tn)).
Proof.
  intros Hn Hks He. rewrite (analyze_resolved _ Hn), Hks.
  rewrite (find_baseline_key_first earlier later "" tn He (is_substring_empty _)).
  reflexivity.
Qed.

(** X7. A platform without entries gives the no-baseline result for every
    test name, also one that is not a string: [lower()] is never called. *)
Theorem no_entries_no_baseline (test_name : value) :
  getitem results "test_name" = Ok test_name ->
  entries = [] ->
  snd (analyze_test_results fs rf bf os_name w)
    = Ok (no_baseline results test_name).
Proof.
  intros Hn He. now rewrite (analyze_resolved _ Hn), He.
Qed.

(** X8. With at least one entry for the platform, a test name that has no
    [lower()] makes the call raise at the first key. *)
Theorem test_name_must_be_text (test_name : value) (e : exn) :
  getitem results "test_name" = Ok test_name ->
  entries <> [] ->
  lower test_name = Raise e ->
  snd (analyze_test_results fs rf bf os_name w) = Raise e.
Proof.
  intros Hn Hne Hl. rewrite (analyze_resolved _ Hn).
  assert (K : exists k ks, dict_keys entries = k :: ks).
  { clear - Hne. destruct entries as [|[k v] rest]; [contradiction|].
    now exists k, (dict_keys rest). }
  destruct K as (k & ks & ->). simpl. now rewrite Hl.
Qed.

End Resolution.

Lemma empty_key_hides_later_entries_witness :
  snd (run (py := ascii_only) (record "ipc_memory_test" 0 53 0 2)
         (linux_only hidden_entries) "linux")
    = Ok (no_baseline (record "ipc_memory_test" 0 53 0 2) (VStr "ipc_memory_test")).
Proof.
  apply (empty_key_hides_later_entries (py := ascii_only)
           (files (record "ipc_memory_test" 0 53 0 2) (linux_only hidden_entries))
           "results.json" "baselines.json" "linux" start
           (record "ipc_memory_test" 0 53 0 2) (linux_only hidden_entries)
           (VDict [("linux", VDict hidden_entries)]) true hidden_entries
           eq_refl eq_refl eq_refl eq_refl eq_refl
           "ipc_memory_test" ["latency"] ["memory"]);
    try reflexivity.
  intros k [<-|[]]. apply str_in_not_substring. reflexivity.
Defined.

Lemma no_entries_no_baseline_witness :
  snd (run (py := ascii_only) numbered (linux_only []) "linux")
    = Ok (no_baseline numbered (VInt 7)).
Proof.
  apply (no_entries_no_baseline (py := ascii_only)
           (files numbered (linux_only [])) "results.json" "baselines.json"
           "linux" start numbered (linux_only []) (VDict [("linux", VDict [])])
           true [] eq_refl eq_refl eq_refl eq_refl eq_refl (VInt 7));
    reflexivity.
Defined.

Lemma test_name_must_be_text_witness :
  snd (run (py := ascii_only) numbered memory_table "linux")
    = Raise AttributeError.
Proof.
  apply (test_name_must_be_text (py := ascii_only)
           (files numbered memory_table) "results.json" "baselines.json"
           "linux" start numbered memory_table
           (VDict [("linux", VDict [("memory", memory_entry)])])
           true [("memory", memory_entry)]
           eq_refl eq_refl eq_refl eq_refl eq_refl (VInt 7) AttributeError);
    try reflexivity.
  discriminate.
Defined.

(** X9. When neither the platform nor [linux] is a key of the table, the
    call prints the fallback warning and then raises [KeyError('linux')]. *)
Theorem fallback_needs_linux {py : Builtins} (fs : filesystem)
    (rf bf os_name : string)
    (w : world) (results baselines : value) (platforms : dict) :
  load_json fs rf = Ok results ->
  load_json fs bf = Ok baselines ->
  getitem baselines "baselines" = Ok (VDict platforms) ->
  lookup os_name platforms = None ->
  lookup "linux" platforms = None ->
  analyze_test_results fs rf bf os_name w
    = (warn_fallback os_name w, Raise (KeyError "linux")).
Proof.
  intros Hr Hb Ht Ho Hl.
  rewrite (analyze_run fs rf bf os_name w results baselines (VDict platforms)
             Hr Hb Ht false).
  - unfold compare_with_baselines. cbn. now rewrite Hl.
  - cbn. unfold has_key. now rewrite Ho.
Qed.

Lemma fallback_needs_linux_witness :
  run (py := ascii_only) (record "ipc_memory_test" 0 53 0 2) macos_table
    "windows" = (warn_fallback "windows" start, Raise (KeyError "linux")).
Proof.
  apply (fallback_needs_linux (py := ascii_only)
           (files (record "ipc_memory_test" 0 53 0 2) macos_table)
           "results.json" "baselines.json" "windows" start
           (record "ipc_memory_test" 0 53 0 2) macos_table
           [("macos", VDict [("memory", memory_entry)])]);
    reflexivity.
Defined.

(** X10. The call leaves the world as it was or with the one line of the
    fallback warning added: it prints nothing else and writes no file. *)
Theorem analyze_footprint {py : Builtins} (fs : filesystem)
    (rf bf os_name : string) (w : world) :
  let w' := fst (analyze_test_results fs rf bf os_name w) in
  w' = w \/ w' = warn_fallback os_name w.
Proof.
  unfold analyze_test_results, bind, lift.
  destruct (load_json fs rf); [|now left].
  destruct (load_json fs bf) as [b|]; [|now left].
  destruct (getitem b "baselines") as [t|]; [|now left].
  destruct (contains os_name t) as [[]|]; cbn; auto.
Qed.

(** ** More on the verdict *)

Lemma check_at_most_one (results baseline tolerance : value)
    (bound_key section field comparison template : string) (ms : list value) :
  check results baseline tolerance bound_key section field comparison template
    = Ok ms ->
  (List.length ms <= 1)%nat.
Proof.
  unfold check. intros H. bind_inv H. destruct x.
  - do 4 bind_inv H. destruct (negb _).
    + bind_inv H. injection H as <-. simpl. lia.
    + injection H as <-. simpl. lia.
  - injection H as <-. simpl. lia.
Qed.

(** The dictionary [evaluate] returns. *)
Lemma evaluate_inv (results os_baselines test_name : value)
    (os_name key : string) (a : value) :
  evaluate results os_baselines test_name os_name key = Ok a ->
  exists failures warnings throughput memory_mb p99_latency_us error_rate,
    (List.length failures <= 3)%nat /\ (List.length warnings <= 1)%nat /\
    getitem2 results "throughput" "messages_per_second" = Ok throughput /\
    getitem2 results "memory" "peak_mb" = Ok memory_mb /\
    getitem2 results "latency" "p99_us" = Ok p99_latency_us /\
    getitem2 results "errors" "error_rate" = Ok error_rate /\
    a = VDict [("status", VStr (status_of failures warnings));
               ("test_name", test_name);
               ("os", VStr os_name);
               ("failures", VList failures);
               ("warnings", VList warnings);
               ("metrics", VDict [("throughput", throughput);
                                  ("memory_mb", memory_mb);
                                  ("p99_latency_us", p99_latency_us);
                                  ("error_rate", error_rate)])].
Proof.
  unfold evaluate. intros H.
  bind_inv H. bind_inv H.
  bind_inv H. rename x1 into f1, E1 into H1.
  bind_inv H. rename x1 into f2, E1 into H2.
  bind_inv H. rename x1 into f3, E1 into H3.
  bind_inv H. rename x1 into w1, E1 into H4.
  cbv zeta in H. repeat bind_inv H. injection H as <-.
  apply check_at_most_one in H1, H2, H3, H4.
  exists (f1 ++ f2 ++ f3), w1. do 4 eexists.
  repeat split; try reflexivity; try assumption.
  rewrite !List.length_app. lia.
Qed.

(** X11. A verdict carries the test name, the platform used and the four
    measured values as they stand in the result file, whichever of them were
    compared. *)
Theorem verdict_snapshot (results os_baselines test_name : value)
    (os_name key : string) (a : value) :
  evaluate results os_baselines test_name os_name key = Ok a ->
  getitem a "test_name" = Ok test_name /\
  getitem a "os" = Ok (VStr os_name) /\
  getitem2 a "metrics" "throughput"
    = getitem2 results "throughput" "messages_per_second" /\
  getitem2 a "metrics" "memory_mb" = getitem2 results "memory" "peak_mb" /\
  getitem2 a "metrics" "p99_latency_us" = getitem2 results "latency" "p99_us" /\
  getitem2 a "metrics" "error_rate" = getitem2 results "errors" "error_rate".
Proof.
  intros H. apply evaluate_inv in H.
  destruct H as (f & ws & x1 & x2 & x3 & x4 & _ & _ & -> & -> & -> & -> & ->).
  repeat split.
Qed.

Lemma verdict_snapshot_witness :
  getitem (memory_verdict "linux") "test_name" = Ok (VStr "ipc_memory_test") /\
  getitem (memory_verdict "linux") "os" = Ok (VStr "linux") /\
  getitem2 (memory_verdict "linux") "metrics" "throughput"
    = getitem2 (record "ipc_memory_test" 0 53 0 2) "throughput" "messages_per_second" /\
  getitem2 (memory_verdict "linux") "metrics" "memory_mb"
    = getitem2 (record "ipc_memory_test" 0 53 0 2) "memory" "peak_mb" /\
  getitem2 (memory_verdict "linux") "metrics" "p99_latency_us"
    = getitem2 (record "ipc_memory_test" 0 53 0 2) "latency" "p99_us" /\
  getitem2 (memory_verdict "linux") "metrics" "error_rate"
    = getitem2 (record "ipc_memory_test" 0 53 0 2) "errors" "error_rate".
Proof.
  apply (verdict_snapshot (record "ipc_memory_test" 0 53 0 2)
           (VDict [("memory", memory_entry)]) (VStr "ipc_memory_test")
           "linux" "memory" (memory_verdict "linux")).
  vm_compute. reflexivity.
Defined.

(** X12. A verdict lists at most three failures and at most one warning. *)
Theorem verdict_sizes (results os_baselines test_name : value)
    (os_name key : string) (a : value) :
  evaluate results os_baselines test_name os_name key = Ok a ->
  exists failures warnings,
    getitem a "failures" = Ok (VList failures) /\
    getitem a "warnings" = Ok (VList warnings) /\
    (List.length failures <= 3)%nat /\ (List.length warnings <= 1)%nat.
Proof.
  intros H. apply evaluate_inv in H.
  destruct H as (f & ws & x1 & x2 & x3 & x4 & Hf & Hw & _ & _ & _ & _ & ->).
  exists f, ws. repeat split; assumption.
Qed.

Lemma verdict_sizes_witness :
  exists failures warnings,
    getitem (memory_verdict "linux") "failures" = Ok (VList failures) /\
    getitem (memory_verdict "linux") "warnings" = Ok (VList warnings) /\
    (List.length failures <= 3)%nat /\ (List.length warnings <= 1)%nat.
Proof.
  apply (verdict_sizes (record "ipc_memory_test" 0 53 0 2)
           (VDict [("memory", memory_entry)]) (VStr "ipc_memory_test")
           "linux" "memory" (memory_verdict "linux")).
  vm_compute. reflexivity.
Defined.

Lemma check_absent (results : value) (d : dict) (tolerance : value)
    (bound_key section field comparison template : string) :
  lookup bound_key d = None ->
  check results (VDict d) tolerance bound_key section field comparison template
    = Ok [].
Proof.
  intros L. unfold check. cbn [contains rbind]. unfold has_key. now rewrite L.
Qed.

(** X13. An entry with none of the four bound keys (a misspelt key is such
    a case) passes every record that has the four measured values, with no
    failure and no warning; its tolerance is not looked at. *)
Theorem entry_without_bounds_passes (results os_baselines test_name : value)
    (os_name key : string) (d : dict)
    (throughput memory_mb p99_latency_us error_rate : value) :
  getitem os_baselines key = Ok (VDict d) ->
  lookup "min_throughput_msg_sec" d = None ->
  lookup "max_memory_mb" d = None ->
  lookup "max_latency_p99_us" d = None ->
  lookup "max_violations_percent" d = None ->
  getitem2 results "throughput" "messages_per_second" = Ok throughput ->
  getitem2 results "memory" "peak_mb" = Ok memory_mb ->
  getitem2 results "latency" "p99_us" = Ok p99_latency_us ->
  getitem2 results "errors" "error_rate" = Ok error_rate ->
  evaluate results os_baselines test_name os_name key
    = Ok (VDict [("status", VStr "passed");
                 ("test_name", test_name);
                 ("os", VStr os_name);
                 ("failures", VList []);
                 ("warnings", VList []);
                 ("metrics", VDict [("throughput", throughput);
                                    ("memory_mb", memory_mb);
                                    ("p99_latency_us", p99_latency_us);
                                    ("error_rate", error_rate)])]).
Proof.
  intros Hb L1 L2 L3 L4 M1 M2 M3 M4. unfold evaluate.
  rewrite Hb. cbn [rbind get_default].
  destruct (lookup "tolerance_percent" d); cbn [rbind];
    rewrite !check_absent by assumption; cbn [rbind];
    rewrite M1, M2, M3, M4; reflexivity.
Qed.

Lemma entry_without_bounds_passes_witness :
  evaluate (record "ipc_throughput" 0 53 0 2)
    (VDict [("throughput", VDict misspelt_entry)]) (VStr "ipc_throughput")
    "linux" "throughput"
    = Ok (verdict "passed" "ipc_throughput" "linux" [] [] 0 53 0).
Proof.
  apply (entry_without_bounds_passes (record "ipc_throughput" 0 53 0 2)
           (VDict [("throughput", VDict misspelt_entry)]) (VStr "ipc_throughput")
           "linux" "throughput" misspelt_entry
           (VInt 0) (VInt 53) (VInt 0) (VInt 0));
    reflexivity.
Defined.

Lemma lookup_app_new (k : string) (v : value) (d : dict) :
  lookup k d = None -> lookup k (d ++ [(k, v)]) = Some v.
Proof.
  induction d as [|[k' v'] d IH]; simpl.
  - now rewrite String.eqb_refl.
  - destruct (String.eqb k' k); [discriminate | exact IH].
Qed.

Lemma check_with_tolerance_key (results : value) (d : dict) (tolerance v : value)
    (bound_key section field comparison template : string) :
  "tolerance_percent" <> bound_key ->
  check results (VDict (d ++ [("tolerance_percent", v)])) tolerance
    bound_key section field comparison template
  = check results (VDict d) tolerance
      bound_key section field comparison template.
Proof.
  intros Hne. unfold check. cbn [contains getitem]. unfold has_key.
  now rewrite lookup_app_other by assumption.
Qed.

(** X14. An entry without [tolerance_percent] is evaluated as the same entry
    with [tolerance_percent] 10. *)
Theorem default_tolerance_is_ten (results test_name : value)
    (os_name key : string) (d : dict) :
  lookup "tolerance_percent" d = None ->
  evaluate results (VDict [(key, VDict d)]) test_name os_name key
    = evaluate results
        (VDict [(key, VDict (d ++ [("tolerance_percent", VInt 10)]))])
        test_name os_name key.
Proof.
  intros L. unfold evaluate. cbn [getitem lookup]. rewrite String.eqb_refl.
  cbn [rbind get_default]. rewrite L, (lookup_app_new _ _ _ L).
  cbn [rbind]. now rewrite !check_with_tolerance_key by discriminate.
Qed.

Lemma default_tolerance_is_ten_witness :
  evaluate (record "ipc_memory_test" 0 53 0 2)
    (VDict [("memory", VDict [("max_memory_mb", VInt 50)])])
    (VStr "ipc_memory_test") "linux" "memory"
  = evaluate (record "ipc_memory_test" 0 53 0 2)
      (VDict [("memory", VDict ([("max_memory_mb", VInt 50)]
                                  ++ [("tolerance_percent", VInt 10)]))])
      (VStr "ipc_memory_test") "linux" "memory".
Proof.
  apply (default_tolerance_is_ten (record "ipc_memory_test" 0 53 0 2)
           (VStr "ipc_memory_test") "linux" "memory" [("max_memory_mb", VInt 50)]).
  reflexivity.
Defined.

(** ** More on the report *)

Lemma itemized_list (a : value) (key title : string) (items : list value) :
  getitem a key = Ok (VList items) ->
  itemized a key title
    = Ok (match items with
          | [] => []
          | _ => [VStr (title ++ nl)]
                   ++ map (fun item => VFmt ("- {}" ++ nl) [item]) items
                   ++ [VStr nl]
          end).
Proof.
  intros H. destruct a; try discriminate H.
  unfold itemized, get, get_default. cbn [getitem] in H.
  destruct (lookup key d) eqn:L; [|discriminate]. injection H as ->.
  cbn [rbind truthy]. destruct items; [reflexivity|].
  cbn [getitem]. now rewrite L.
Qed.

(** A verdict whose four metrics take a float format renders. *)
Lemma verdict_renders (status os_name : string) (test_name : value)
    (failures warnings : list value) (x1 x2 x3 x4 : value) :
  float_field x1 = Ok x1 -> float_field x2 = Ok x2 ->
  float_field x3 = Ok x3 -> float_field x4 = Ok x4 ->
  renders (VDict [("status", VStr status);
                  ("test_name", test_name);
                  ("os", VStr os_name);
                  ("failures", VList failures);
                  ("warnings", VList warnings);
                  ("metrics", VDict [("throughput", x1);
                                     ("memory_mb", x2);
                                     ("p99_latency_us", x3);
                                     ("error_rate", x4)])]).
Proof.
  intros N1 N2 N3 N4. unfold renders, report_section, metric_field.
  cbn [getitem getitem2 lookup String.eqb Ascii.eqb Bool.eqb rbind].
  rewrite N1, N2, N3, N4.
  cbn [rbind].
  rewrite (itemized_list _ "failures" _ failures) by reflexivity.
  rewrite (itemized_list _ "warnings" _ warnings) by reflexivity.
  cbn [rbind]. eauto.
Qed.

(** X15. A record of numbers evaluated against an entry of numbers, all of
    them in the range of the floats, gives a verdict, and the section of the
    report for that verdict is rendered. *)
Theorem numeric_record_renders (tn : string)
    (throughput memory p99 violations error_rate : value)
    (entries d : dict) (test_name : value) (os_name key : string) :
  lookup key entries = Some (VDict d) ->
  numeric_entry d ->
  in_float_range throughput -> in_float_range memory ->
  in_float_range p99 -> in_float_range violations ->
  in_float_range error_rate ->
  exists a,
    evaluate (metric_record tn throughput memory p99 violations error_rate)
      (VDict entries) test_name os_name key = Ok a /\
    renders a.
Proof.
  intros L Hd R1 R2 R3 R4 R5.
  destruct (evaluate_returns tn throughput memory p99 violations error_rate
              entries d test_name os_name key L Hd R1 R2 R3 R4) as [a Ha].
  exists a. split; [exact Ha|].
  apply evaluate_inv in Ha.
  destruct Ha as (f & ws & x1 & x2 & x3 & x4 & _ & _ & M1 & M2 & M3 & M4 & ->).
  injection M1 as <-. injection M2 as <-. injection M3 as <-. injection M4 as <-.
  apply verdict_renders; now apply in_range_float_field.
Qed.

Lemma small_int_in_range (n : Z) :
  (exists f, int_to_float n = Ok f) -> (exists r, int_truediv n 100 = Ok r) ->
  in_float_range (VInt n).
Proof. intros F R. exists (Int n). repeat split; assumption. Qed.

Lemma numeric_record_renders_witness :
  exists a,
    evaluate (metric_record "ipc_memory_test" (VInt 0) (VInt 53) (VInt 0)
                (VInt 2) (VInt 0))
      (VDict [("memory", VDict [("max_memory_mb", VInt 50)])])
      (VStr "ipc_memory_test") "linux" "memory" = Ok a /\
    renders a.
Proof.
  apply (numeric_record_renders "ipc_memory_test" (VInt 0) (VInt 53) (VInt 0)
           (VInt 2) (VInt 0)
           [("memory", VDict [("max_memory_mb", VInt 50)])]
           [("max_memory_mb", VInt 50)] (VStr "ipc_memory_test") "linux" "memory");
    try (apply small_int_in_range; eexists; vm_compute; reflexivity).
  - reflexivity.
  - intros k x. cbn [lookup].
    destruct (String.eqb "max_memory_mb" k); [|discriminate].
    intros [= <-]. apply small_int_in_range; eexists; vm_compute; reflexivity.
Defined.

(** The report fails with the exception of the first analysis that does not
    render. *)
Lemma report_first_failure (before after : list value) (a : value) (e : exn) :
  Forall renders before ->
  has_status a ->
  report_section a = Raise e ->
  Forall has_status after ->
  generate_markdown_report (before ++ a :: after) = Raise e.
Proof.
  intros Hb Ha R Hafter. unfold generate_markdown_report.
  destruct (report_head_total (before ++ a :: after)) as [head ->].
  - apply Forall_app. split.
    + revert Hb. apply Forall_impl, renders_has_status.
    + now constructor.
  - cbn [rbind].
    assert (S : report_sections (before ++ a :: after) = Raise e).
    { clear - Hb R. induction Hb as [|b before [pieces Hp] _ IH]; simpl.
      - now rewrite R.
      - now rewrite Hp, IH. }
    now rewrite S.
Qed.

(** X16. The error rate is copied into the verdict without any check: when
    a record whose error rate is a string (its other three values taking
    their float format) gets a verdict, the section of the report for it
    raises [ValueError], and so does the report of every batch in which the
    analyses before it render. *)
Theorem text_error_rate_breaks_report (results os_baselines test_name : value)
    (os_name key : string) (a x1 x2 x3 : value) (s : string) :
  evaluate results os_baselines test_name os_name key = Ok a ->
  getitem2 results "throughput" "messages_per_second" = Ok x1 ->
  getitem2 results "memory" "peak_mb" = Ok x2 ->
  getitem2 results "latency" "p99_us" = Ok x3 ->
  float_field x1 = Ok x1 -> float_field x2 = Ok x2 -> float_field x3 = Ok x3 ->
  getitem2 results "errors" "error_rate" = Ok (VStr s) ->
  report_section a = Raise ValueError /\
  forall before after,
    Forall renders before -> Forall has_status after ->
    generate_markdown_report (before ++ a :: after) = Raise ValueError.
Proof.
  intros Ha M1 M2 M3 N1 N2 N3 M4.
  assert (S : has_status a) by (eapply evaluate_has_status, Ha).
  apply evaluate_inv in Ha.
  destruct Ha as (f & ws & y1 & y2 & y3 & y4 & _ & _ & M1' & M2' & M3' & M4' & ->).
  assert (y1 = x1) by congruence. assert (y2 = x2) by congruence.
  assert (y3 = x3) by congruence. assert (y4 = VStr s) by congruence. subst.
  assert (R : report_section
                (VDict [("status", VStr (status_of f ws));
                        ("test_name", test_name); ("os", VStr os_name);
                        ("failures", VList f); ("warnings", VList ws);
                        ("metrics", VDict [("throughput", x1); ("memory_mb", x2);
                                           ("p99_latency_us", x3);
                                           ("error_rate", VStr s)])])
              = Raise ValueError).
  { unfold report_section, metric_field.
    cbn [getitem getitem2 lookup String.eqb Ascii.eqb Bool.eqb rbind].
    rewrite N1, N2, N3. reflexivity. }
  split; [exact R|].
  intros before after Hb Hafter.
  now apply report_first_failure.
Qed.

Lemma text_error_rate_breaks_report_witness :
  report_section unrated_verdict = Raise ValueError /\
  forall before after,
    Forall renders before -> Forall has_status after ->
    generate_markdown_report (before ++ unrated_verdict :: after)
      = Raise ValueError.
Proof.
  apply (text_error_rate_breaks_report unrated
           (VDict [("memory", memory_entry)]) (VStr "ipc_memory_test")
           "linux" "memory" unrated_verdict (VInt 0) (VInt 53) (VInt 0) "n/a");
    vm_compute; reflexivity.
Defined.

(** X17. The sections of a batch are the sections of its first part followed
    by those of the rest, and the first exception met is the one raised. *)
Theorem report_sections_app (l1 l2 : list value) :
  report_sections (l1 ++ l2) =
    rbind (report_sections l1) (fun s1 =>
    rbind (report_sections l2) (fun s2 => Ok (s1 ++ s2))).
Proof.
  induction l1 as [|a l1 IH]; simpl.
  - destruct (report_sections l2); reflexivity.
  - destruct (report_section a) as [sec|]; [|reflexivity]. simpl.
    rewrite IH. destruct (report_sections l1); [|reflexivity]. simpl.
    destruct (report_sections l2); [|reflexivity]. simpl.
    now rewrite app_assoc.
Qed.

(** ** Statuses *)

Lemma status_of_plain (failures warnings : list value) :
  status_of failures warnings = "passed" \/
  status_of failures warnings = "warning" \/
  status_of failures warnings = "failed".
Proof. destruct failures, warnings; simpl; auto. Qed.

Lemma compare_with_baselines_plain {py : Builtins} (results table : value) (os_name : string)
    (a : value) :
  compare_with_baselines results table os_name = Ok a -> plain_status a.
Proof.
  unfold compare_with_baselines. intros H. repeat bind_inv H.
  assert (N : plain_status (no_baseline results x0)).
  { exists "warning". split; [reflexivity | auto]. }
  destruct x2 as [key|]; [destruct (String.eqb key "")|];
    try (injection H as <-; exact N).
  apply evaluate_inv in H.
  destruct H as (f & ws & y1 & y2 & y3 & y4 & _ & _ & _ & _ & _ & _ & ->).
  exists (status_of f ws). split; [reflexivity|].
  destruct (status_of_plain f ws) as [P | [P | P]]; rewrite P; auto.
Qed.

Lemma analyze_plain_status {py : Builtins} (fs : filesystem) (rf bf os_name : string)
    (w w' : world) (a : value) :
  analyze_test_results fs rf bf os_name w = (w', Ok a) -> plain_status a.
Proof.
  unfold analyze_test_results, bind, lift. intros H.
  destruct (load_json fs rf) as [results|]; [|discriminate].
  destruct (load_json fs bf) as [baselines|]; [|discriminate].
  destruct (getitem baselines "baselines") as [table|]; [|discriminate].
  destruct (contains os_name table) as [known|]; [|discriminate].
  destruct known; simpl in H; injection H as _ H;
    eapply compare_with_baselines_plain, H.
Qed.

(** X18. The status of every analysis returned is [passed], [warning] or
    [failed]. *)
Theorem analyze_status_range {py : Builtins} (fs : filesystem) (rf bf os_name : string)
    (w w' : world) (a : value) :
  analyze_test_results fs rf bf os_name w = (w', Ok a) ->
  exists s, getitem a "status" = Ok (VStr s) /\
            (s = "passed" \/ s = "warning" \/ s = "failed").
Proof. apply analyze_plain_status. Qed.

Lemma analyze_status_range_witness :
  exists s, getitem (memory_verdict "linux") "status" = Ok (VStr s) /\
            (s = "passed" \/ s = "warning" \/ s = "failed").
Proof.
  apply (analyze_status_range (py := ascii_only)
           (files (record "ipc_memory_test" 0 53 0 2) memory_table)
           "results.json" "baselines.json" "linux" start start
           (memory_verdict "linux")).
  vm_compute. reflexivity.
Defined.

(** ** Counting *)

Lemma eq_str_true (v : value) (s : string) : eq_str v s = true <-> v = VStr s.
Proof.
  destruct v; simpl; try (split; [discriminate | congruence]).
  rewrite String.eqb_eq. split; congruence.
Qed.

Lemma count_status_positive (status : string) (l : list value) (n : nat) :
  count_status status l = Ok n ->
  ((0 < n)%nat <-> exists a, In a l /\ getitem a "status" = Ok (VStr status)).
Proof.
  revert n. induction l as [|a l IH]; simpl; intros n H.
  - injection H as <-. split; [lia | intros (a & [] & _)].
  - bind_inv H. bind_inv H. injection H as <-.
    specialize (IH _ eq_refl).
    destruct (eq_str x status) eqn:Q.
    + apply eq_str_true in Q. subst x. split; [|lia].
      intros _. exists a. split; [now left | exact E].
    + rewrite IH. split.
      * intros (b & Hb & Sb). exists b. split; [now right | exact Sb].
      * intros (b & [<-|Hb] & Sb).
        -- rewrite E in Sb. injection Sb as ->.
           rewrite (proj2 (eq_str_true _ _) eq_refl) in Q. discriminate.
        -- now exists b.
Qed.

(** X19. The banner is the FAILED one exactly when an analysis of the batch
    has the status [failed], and the PASSED one exactly when none has the
    status [failed] or [warning]. *)
Theorem banner_shows_worst_status (l : list value) (passed failed warnings : nat) :
  summary l = Ok (passed, failed, warnings) ->
  (banner failed warnings = failed_banner <->
     exists a, In a l /\ getitem a "status" = Ok (VStr "failed")) /\
  (banner failed warnings = banner 0 0 <->
     forall a, In a l ->
       getitem a "status" <> Ok (VStr "failed") /\
       getitem a "status" <> Ok (VStr "warning")).
Proof.
  unfold summary. intros H.
  bind_inv H. bind_inv H. bind_inv H. injection H as -> -> ->.
  pose proof (count_status_positive _ _ _ E0) as F.
  pose proof (count_status_positive _ _ _ E1) as W.
  split.
  - now rewrite banner_failed.
  - unfold banner.
    destruct (Nat.ltb_spec 0 failed) as [Hf|Hf];
      [|destruct (Nat.ltb_spec 0 warnings) as [Hw|Hw]]; simpl.
    + split; [discriminate|]. intros N.
      destruct (proj1 F Hf) as (a & Ha & Sa). now destruct (N a Ha).
    + split; [discriminate|]. intros N.
      destruct (proj1 W Hw) as (a & Ha & Sa). now destruct (N a Ha).
    + split; [|reflexivity]. intros _ a Ha. split; intros Sa.
      * assert (0 < failed)%nat by (apply F; eauto). lia.
      * assert (0 < warnings)%nat by (apply W; eauto). lia.
Qed.

Lemma banner_shows_worst_status_witness :
  (banner 1 1 = failed_banner <->
     exists a, In a [memory_verdict "linux"; render_result] /\
               getitem a "status" = Ok (VStr "failed")) /\
  (banner 1 1 = banner 0 0 <->
     forall a, In a [memory_verdict "linux"; render_result] ->
       getitem a "status" <> Ok (VStr "failed") /\
       getitem a "status" <> Ok (VStr "warning")).
Proof.
  apply (banner_shows_worst_status [memory_verdict "linux"; render_result] 0 1 1).
  reflexivity.
Defined.

Lemma counts_partition (l : list value) :
  Forall plain_status l ->
  exists p f x,
    summary l = Ok (p, f, x) /\ (p + f + x = List.length l)%nat.
Proof.
  unfold summary.
  induction 1 as [|a l (s & Hs & Hcase) _ (p & f & x & Hsum & Hlen)].
  - exists 0%nat, 0%nat, 0%nat. now split.
  - repeat bind_inv Hsum. injection Hsum as <- <- <-.
    simpl. rewrite Hs, E, E0, E1. cbn [rbind eq_str].
    destruct Hcase as [-> | [-> | ->]]; simpl; do 3 eexists;
      (split; [reflexivity | simpl; lia]).
Qed.

Lemma process_appends_plain {py : Builtins} (fs : filesystem) (args : arguments)
    (analyses : list value) (result_file : string) (w : world) :
  exists w' added,
    process fs args analyses result_file w = (w', Ok (analyses ++ added)) /\
    Forall plain_status added /\ (List.length added <= 1)%nat.
Proof.
  unfold process, bind, try_except, ret.
  destruct (analyze_test_results fs result_file (baselines_path args)
              (detect_os result_file) w) as [w1 [a|e]] eqn:A.
  - apply analyze_plain_status in A.
    destruct (print_summary a (detect_os result_file) w1) as [w2 [[]|e]];
      simpl; eexists; exists [a]; (split; [reflexivity|]);
      (split; [repeat constructor; exact A | simpl; lia]).
  - simpl. eexists. exists []. rewrite app_nil_r.
    split; [reflexivity|]. split; [constructor | simpl; lia].
Qed.

Lemma process_all_appends_plain {py : Builtins} (fs : filesystem) (args : arguments)
    (result_files : list string) (analyses : list value) (w : world) :
  exists w' added,
    process_all fs args analyses result_files w = (w', Ok (analyses ++ added)) /\
    Forall plain_status added /\
    (List.length added <= List.length result_files)%nat.
Proof.
  revert analyses w. induction result_files as [|f rest IH]; intros analyses w.
  - exists w, []. rewrite app_nil_r.
    split; [reflexivity|]. split; [constructor | simpl; lia].
  - destruct (process_appends_plain fs args analyses f w)
      as (w1 & a1 & P & F1 & L1).
    destruct (IH (analyses ++ a1) w1) as (w2 & a2 & Q & F2 & L2).
    exists w2, (a1 ++ a2). simpl. unfold bind. rewrite P, Q, <- app_assoc.
    split; [reflexivity|]. split; [apply Forall_app; now split|].
    rewrite List.length_app. lia.
Qed.

(** X20. The loop of [main] always ends with a batch; it holds at most one
    analysis per result file, and its three counts add up to its size. *)
Theorem batch_counts_add_up {py : Builtins} (fs : filesystem) (args : arguments)
    (result_files : list string) (w : world) :
  exists w' analyses passed failed warnings,
    process_all fs args [] result_files w = (w', Ok analyses) /\
    summary analyses = Ok (passed, failed, warnings) /\
    (passed + failed + warnings = List.length analyses)%nat /\
    (List.length analyses <= List.length result_files)%nat.
Proof.
  destruct (process_all_appends_plain fs args result_files [] w)
    as (w' & analyses & P & F & L).
  destruct (counts_partition analyses F) as (p & f & x & S & Hsum).
  exists w', analyses, p, f, x. repeat split; assumption.
Qed.

(** ** [detect_os] *)

(** X21. The platform guessed from a file name: [linux] when the lower-cased
    path contains "linux" or none of the other marks, [macos] when it
    contains "macos" or "darwin" and not "linux", [windows] when it contains
    "win" and none of "linux", "macos", "darwin". *)
Theorem detect_os_cases {py : Builtins} (result_file : string) :
  let path := str_lower result_file in
  (detect_os result_file = "linux" <->
     is_substring "linux" path \/
     (~ is_substring "macos" path /\ ~ is_substring "darwin" path /\
      ~ is_substring "win" path)) /\
  (detect_os result_file = "macos" <->
     ~ is_substring "linux" path /\
     (is_substring "macos" path \/ is_substring "darwin" path)) /\
  (detect_os result_file = "windows" <->
     ~ is_substring "linux" path /\ ~ is_substring "macos" path /\
     ~ is_substring "darwin" path /\ is_substring "win" path).
Proof.
  intros path. unfold detect_os. fold path.
  assert (W : str_in "windows" path = true -> str_in "win" path = true).
  { rewrite !str_in_substring. intros (b & a & ->).
    exists b, ("dows" ++ a)%string. reflexivity. }
  rewrite <- !str_in_not_substring, <- !str_in_substring.
  destruct (str_in "linux" path), (str_in "macos" path),
    (str_in "darwin" path), (str_in "win" path),
    (str_in "windows" path); simpl;
    try (specialize (W eq_refl); discriminate W);
    repeat split; intros; try discriminate; try tauto;
    intuition discriminate.
Qed.

(** ** More on [main] *)

Lemma plain_has_status (a : value) : plain_status a -> has_status a.
Proof. intros (s & H & _). now exists (VStr s). Qed.

(** X22. When [main] reaches [sys.exit], the status is 0 or 1; it is 0
    without [--fail-on-regression], and 1 only if an analysis of the batch
    has the status [failed]. *)
Theorem main_exit_status {py : Builtins} (fs : filesystem) (args : arguments)
    (result_files : list string) (w : world) (code : Z) :
  snd (main fs args result_files w) = Ok code ->
  (code = 0%Z \/ code = 1%Z) /\
  (fail_on_regression args = false -> code = 0%Z) /\
  (code = 1%Z ->
   exists w' analyses a,
     process_all fs args [] result_files w = (w', Ok analyses) /\
     In a analyses /\ getitem a "status" = Ok (VStr "failed")).
Proof.
  intros H.
  destruct (process_all_appends_plain fs args result_files [] w)
    as (w' & analyses & P & F & _). simpl in P.
  destruct (generate_markdown_report analyses) as [report|e] eqn:G.
  - rewrite (main_exit_code _ _ _ _ _ _ _ P G) in H.
    unfold exit_code in H. destruct (fail_on_regression args).
    + bind_inv H. pose proof (count_status_positive _ _ _ E) as C.
      destruct (Nat.ltb_spec 0 x) as [Hx|Hx]; injection H as <-.
      * repeat split; auto; try discriminate.
        intros _. destruct (proj1 C Hx) as (a & Ha & Sa).
        now exists w', analyses, a.
      * repeat split; auto; discriminate.
    + injection H as <-. repeat split; auto; discriminate.
  - destruct (main_report_exception _ _ _ _ _ _ _ P G) as [M _].
    rewrite M in H. discriminate.
Qed.

Lemma main_exit_status_witness :
  (1%Z = 0%Z \/ 1%Z = 1%Z) /\
  (fail_on_regression enforcing = false -> 1%Z = 0%Z) /\
  (1%Z = 1%Z ->
   exists w' analyses a,
     process_all (py := ascii_only) batch enforcing []
       ["out/linux_memory.json"] start = (w', Ok analyses) /\
     In a analyses /\ getitem a "status" = Ok (VStr "failed")).
Proof.
  apply (main_exit_status (py := ascii_only) batch enforcing
           ["out/linux_memory.json"] start 1%Z).
  vm_compute. reflexivity.
Defined.

Lemma process_all_failing {py : Builtins} (fs : filesystem) (args : arguments)
    (result_files : list string) (analyses : list value) (w : world) :
  (forall f w0, In f result_files ->
     exists w1 e,
       analyze_test_results fs f (baselines_path args) (detect_os f) w0
         = (w1, Raise e)) ->
  snd (process_all fs args analyses result_files w) = Ok analyses.
Proof.
  revert w. induction result_files as [|f rest IH]; intros w H; [reflexivity|].
  destruct (H f w (or_introl eq_refl)) as (w1 & e & A).
  simpl. unfold bind, process, try_except, bind, ret. rewrite A. simpl.
  apply IH. intros f' w0 Hin. apply H. now right.
Qed.

(** X23. When the analysis of every result file raises (an empty directory
    included), the batch is empty, the report is the PASSED one with three
    zero counts, and [main] exits with status 0, with or without
    [--fail-on-regression]. *)
Theorem unreadable_batch_passes {py : Builtins} (fs : filesystem) (args : arguments)
    (result_files : list string) (w : world) :
  (forall f w0, In f result_files ->
     exists w1 e,
       analyze_test_results fs f (baselines_path args) (detect_os f) w0
         = (w1, Raise e)) ->
  snd (process_all fs args [] result_files w) = Ok [] /\
  generate_markdown_report [] =
    Ok [VStr ("# 📊 IPC Performance Test Results" ++ nl);
        VStr (banner 0 0);
        VFmt ("- ✅ Passed: {}" ++ nl) [VNat 0];
        VFmt ("- ⚠️ Warnings: {}" ++ nl) [VNat 0];
        VFmt ("- ❌ Failed: {}" ++ nl ++ nl) [VNat 0];
        VStr ("## Detailed Results" ++ nl ++ nl)] /\
  snd (main fs args result_files w) = Ok 0%Z.
Proof.
  intros H. pose proof (process_all_failing fs args result_files [] w H) as P.
  split; [exact P|]. split; [reflexivity|].
  destruct (process_all fs args [] result_files w) as [w' r] eqn:Q.
  simpl in P. subst r.
  rewrite (main_exit_code _ _ _ _ _ _ _ Q eq_refl).
  unfold exit_code. now destruct (fail_on_regression args).
Qed.

Lemma unreadable_batch_passes_witness :
  snd (process_all (py := ascii_only) no_files enforcing []
         ["out/linux_memory.json"] start) = Ok [] /\
  generate_markdown_report [] =
    Ok [VStr ("# 📊 IPC Performance Test Results" ++ nl);
        VStr (banner 0 0);
        VFmt ("- ✅ Passed: {}" ++ nl) [VNat 0];
        VFmt ("- ⚠️ Warnings: {}" ++ nl) [VNat 0];
        VFmt ("- ❌ Failed: {}" ++ nl ++ nl) [VNat 0];
        VStr ("## Detailed Results" ++ nl ++ nl)] /\
  snd (main (py := ascii_only) no_files enforcing ["out/linux_memory.json"]
         start) = Ok 0%Z.
Proof.
  apply (unreadable_batch_passes (py := ascii_only) no_files enforcing
           ["out/linux_memory.json"] start).
  intros f w0 _. exists w0, (FileNotFoundError f). reflexivity.
Defined.

(** ** Files written *)

Lemma keeps_ret {A : Type} (a : A) : keeps_files (ret a).
Proof. intros w. reflexivity. Qed.

Lemma keeps_lift {A : Type} (r : res A) : keeps_files (lift r).
Proof. intros w. reflexivity. Qed.

Lemma keeps_print (line : value) : keeps_files (print line).
Proof. intros w. reflexivity. Qed.

Lemma keeps_bind {A B : Type} (m : M A) (k : A -> M B) :
  keeps_files m -> (forall a, keeps_files (k a)) -> keeps_files (bind m k).
Proof.
  intros Hm Hk w. unfold bind. specialize (Hm w).
  destruct (m w) as [w1 [a|e]]; simpl in *.
  - now rewrite Hk.
  - exact Hm.
Qed.

Lemma keeps_try_except {A : Type} (body : M A) (handler : exn -> M A) :
  keeps_files body -> (forall e, keeps_files (handler e)) ->
  keeps_files (try_except body handler).
Proof.
  intros Hb Hh w. unfold try_except. specialize (Hb w).
  destruct (body w) as [w1 [a|e]]; simpl in *.
  - exact Hb.
  - now rewrite Hh.
Qed.

Create HintDb files.
#[local] Hint Resolve keeps_ret keeps_lift keeps_print : files.

Lemma keeps_print_each (template : string) (items : list value) :
  keeps_files (print_each template items).
Proof.
  induction items; simpl; [auto with files|].
  apply keeps_bind; auto with files.
Qed.

Lemma keeps_print_itemized (analysis : value) (key template : string) :
  keeps_files (print_itemized analysis key template).
Proof.
  unfold print_itemized. apply keeps_bind; [auto with files|]. intros items.
  destruct (truthy items); [|auto with files].
  apply keeps_bind; [auto with files|]. intros listed.
  apply keeps_bind; [auto with files|]. intros each.
  apply keeps_print_each.
Qed.

Lemma keeps_print_summary {py : Builtins} (analysis : value) (os_name : string) :
  keeps_files (print_summary analysis os_name).
Proof.
  unfold print_summary.
  do 4 (apply keeps_bind; [auto with files|]; intros ?).
  apply keeps_bind; [apply keeps_print_itemized|]. intros _.
  apply keeps_print_itemized.
Qed.

Lemma keeps_analyze {py : Builtins} (fs : filesystem) (rf bf os_name : string) :
  keeps_files (analyze_test_results fs rf bf os_name).
Proof.
  unfold analyze_test_results.
  do 4 (apply keeps_bind; [auto with files|]; intros ?).
  apply keeps_bind; [|auto with files].
  destruct (negb _); [|auto with files].
  apply keeps_bind; auto with files.
Qed.

Lemma keeps_process {py : Builtins} (fs : filesystem) (args : arguments)
    (analyses : list value) (result_file : string) :
  keeps_files (process fs args analyses result_file).
Proof.
  unfold process. apply keeps_bind.
  - apply keeps_try_except.
    + apply keeps_bind; [apply keeps_analyze | auto with files].
    + intros e. apply keeps_bind; auto with files.
  - intros [analysis|]; [|auto with files].
    apply keeps_bind; [|auto with files].
    apply keeps_try_except; [apply keeps_print_summary | auto with files].
Qed.

Lemma keeps_process_all {py : Builtins} (fs : filesystem) (args : arguments)
    (result_files : list string) (analyses : list value) :
  keeps_files (process_all fs args analyses result_files).
Proof.
  revert analyses. induction result_files as [|f rest IH]; intros analyses;
    simpl; [auto with files|].
  apply keeps_bind; [apply keeps_process | intros a; apply IH].
Qed.

(** X24. [main] writes nothing, or exactly one file: the report of the
    batch, at the path given with [--output]. *)
Theorem main_writes_only_the_report {py : Builtins} (fs : filesystem) (args : arguments)
    (result_files : list string) (w : world) :
  let w' := fst (main fs args result_files w) in
  written w' = written w \/
  exists path w1 analyses report,
    output args = Some path /\ path <> "" /\
    process_all fs args [] result_files w = (w1, Ok analyses) /\
    generate_markdown_report analyses = Ok report /\
    written w' = written w ++ [(path, report)].
Proof.
  intros w'. subst w'.
  destruct (process_all_appends_plain fs args result_files [] w)
    as (w1 & analyses & P & _ & _). simpl in P.
  pose proof (keeps_process_all fs args result_files [] w) as K.
  rewrite P in K. simpl in K.
  destruct (generate_markdown_report analyses) as [report|e] eqn:G.
  - unfold main, bind, lift. rewrite P, G.
    destruct (output args) as [path|] eqn:O; [|left; simpl; exact K].
    destruct (String.eqb_spec path "") as [->|Hne]; simpl.
    + left. exact K.
    + right. exists path, w1, analyses, report.
      rewrite K. repeat split; auto.
  - left. destruct (main_report_exception _ _ _ _ _ _ _ P G) as [M _].
    now rewrite M.
Qed.

